(** * Cardiomyocyte development animation: a model of
    [complete-cardiomyocyte-app.py] and the properties of its
    interpolation, frame synthesis and keyframe sampling.

    Modelling conventions.
    - Python floats are modelled as exact rationals ([Q]); every decimal
      literal of the source stands for its exact decimal value and the
      arithmetic is exact.  Numeric equality ([==] in Python) is [Qeq].
    - Python ints are [Z]; [int(x)] on a float truncates toward zero.
    - A dict lookup that fails raises [KeyError]; the model returns
      [Raise (KeyError k)].
    - [np.random.random()] reads the next element of a stream of numbers
      of the half-open unit interval; the stream is arbitrary.
    - [np.sin], [np.cos] and [np.pi] are parameters of the model.
    - A PIL image is the list of the drawing calls made on it, in order;
      each call carries the name of the place of [generate_frame] that
      makes it.
    - The Streamlit widgets and the [st.cache_data] memoisation are not
      modelled. *)

From Stdlib Require Import ZArith QArith Qround Qminmax Lqa Lia List String Bool.
Import ListNotations.

Local Open Scope Z_scope.
Local Open Scope Q_scope.

(** ** Numbers *)

(** Python's [int(x)] for a float [x]: truncation toward zero. *)
Definition py_int (x : Q) : Z := Z.quot (Qnum x) (Zpos (Qden x)).

(** Python's [x % 1.0]: the result has the sign of the divisor. *)
Definition mod1 (x : Q) : Q := x - inject_Z (Qfloor x).

(** Strict comparison of floats as a boolean. *)
Definition Qlt_bool (x y : Q) : bool := negb (Qle_bool y x).

(** Python's [round(x)] (one argument): nearest integer, ties to even.
    The source calls it once, for the key of the preview cache (line
    404); it is also the rounding the specification names for the cell
    and keyframe counts, where the source truncates. *)
Definition py_round (x : Q) : Z :=
  let f := Qfloor x in
  let r := x - inject_Z f in
  if Qlt_bool r (1 # 2) then f
  else if Qlt_bool (1 # 2) r then (f + 1)%Z
  else if Z.even f then f else (f + 1)%Z.

(** ** Exceptions and outcomes *)

Inductive exn : Type :=
| KeyError (k : Z)
| KeyErrorStr (k : string)
| IndexError
| ValueError.

Inductive outcome (A : Type) : Type :=
| Done (a : A)
| Raise (e : exn)
| OutOfFuel.

Arguments Done {A} a.
Arguments Raise {A} e.
Arguments OutOfFuel {A}.

(** ** The characteristic table *)

Record characteristics : Type := {
  title : string;
  shape : string;
  elongation : Q;
  alignment : Q;
  connection : Q;
  sarcomere_organization : Q;
  beating_strength : Q;
  beating_sync : Q;
  color_base : Z * Z * Z;
  nucleus_size : Q;
  debris_level : Q;
  cell_count : Q;
  cell_clustering : Q
}.

Definition day1 : characteristics := {|
  title := "Immature Stage";
  shape := "round";
  elongation := 1.0;
  alignment := 0.1;
  connection := 0.1;
  sarcomere_organization := 0.1;
  beating_strength := 0.1;
  beating_sync := 0.1;
  color_base := (255, 214, 204)%Z;
  nucleus_size := 0.7;
  debris_level := 0.1;
  cell_count := 8;
  cell_clustering := 0.1 |}.

Definition day2 : characteristics := {|
  title := "Initial Beating";
  shape := "slightly_elongated";
  elongation := 1.2;
  alignment := 0.2;
  connection := 0.2;
  sarcomere_organization := 0.2;
  beating_strength := 0.3;
  beating_sync := 0.2;
  color_base := (255, 204, 204)%Z;
  nucleus_size := 0.65;
  debris_level := 0.1;
  cell_count := 12;
  cell_clustering := 0.3 |}.

Definition day3 : characteristics := {|
  title := "Mean Beating Begins";
  shape := "elongated";
  elongation := 1.5;
  alignment := 0.4;
  connection := 0.3;
  sarcomere_organization := 0.4;
  beating_strength := 0.5;
  beating_sync := 0.4;
  color_base := (255, 194, 194)%Z;
  nucleus_size := 0.5;
  debris_level := 0.2;
  cell_count := 16;
  cell_clustering := 0.5 |}.

Definition day4 : characteristics := {|
  title := "Stronger Contractions";
  shape := "well_elongated";
  elongation := 1.8;
  alignment := 0.6;
  connection := 0.5;
  sarcomere_organization := 0.6;
  beating_strength := 0.7;
  beating_sync := 0.6;
  color_base := (255, 153, 153)%Z;
  nucleus_size := 0.45;
  debris_level := 0.2;
  cell_count := 20;
  cell_clustering := 0.7 |}.

Definition day5 : characteristics := {|
  title := "Moderate Synchronization";
  shape := "fully_elongated";
  elongation := 2.0;
  alignment := 0.8;
  connection := 0.7;
  sarcomere_organization := 0.8;
  beating_strength := 0.85;
  beating_sync := 0.8;
  color_base := (255, 102, 102)%Z;
  nucleus_size := 0.4;
  debris_level := 0.3;
  cell_count := 24;
  cell_clustering := 0.8 |}.

Definition day6 : characteristics := {|
  title := "Peak Contraction Activity";
  shape := "fully_elongated";
  elongation := 2.2;
  alignment := 0.9;
  connection := 0.9;
  sarcomere_organization := 0.9;
  beating_strength := 1.0;
  beating_sync := 0.9;
  color_base := (255, 51, 51)%Z;
  nucleus_size := 0.4;
  debris_level := 0.4;
  cell_count := 28;
  cell_clustering := 0.9 |}.

Definition day7 : characteristics := {|
  title := "Damage & Fragmentation Begins";
  shape := "fragmenting";
  elongation := 1.6;
  alignment := 0.5;
  connection := 0.6;
  sarcomere_organization := 0.5;
  beating_strength := 0.6;
  beating_sync := 0.5;
  color_base := (204, 51, 51)%Z;
  nucleus_size := 0.3;
  debris_level := 0.7;
  cell_count := 20;
  cell_clustering := 0.6 |}.

Definition day8 : characteristics := {|
  title := "Significant Cell Damage";
  shape := "fragmented";
  elongation := 1.2;
  alignment := 0.2;
  connection := 0.2;
  sarcomere_organization := 0.1;
  beating_strength := 0.2;
  beating_sync := 0.1;
  color_base := (153, 51, 51)%Z;
  nucleus_size := 0.25;
  debris_level := 0.9;
  cell_count := 12;
  cell_clustering := 0.2 |}.

(** The dict [cell_characteristics], keyed by the integers 1 to 8. *)
Definition cell_characteristics (day : Z) : option characteristics :=
  match day with
  | 1%Z => Some day1
  | 2%Z => Some day2
  | 3%Z => Some day3
  | 4%Z => Some day4
  | 5%Z => Some day5
  | 6%Z => Some day6
  | 7%Z => Some day7
  | 8%Z => Some day8
  | _ => None
  end.

(** [d[k]] on a dict with integer keys. *)
Definition getitem {A : Type} (d : Z -> option A) (k : Z) : outcome A :=
  match d k with
  | Some v => Done v
  | None => Raise (KeyError k)
  end.

(** ** The interpolator *)

(** [val1 + (val2 - val1) * fraction]. *)
Definition blend (val1 val2 fraction : Q) : Q :=
  val1 + (val2 - val1) * fraction.

(** [int(c1 + (c2 - c1) * fraction)] on one color channel. *)
Definition blend_channel (c1 c2 : Z) (fraction : Q) : Z :=
  py_int (inject_Z c1 + (inject_Z c2 - inject_Z c1) * fraction).

Definition blend_color (c1 c2 : Z * Z * Z) (fraction : Q) : Z * Z * Z :=
  let '(r1, g1, b1) := c1 in
  let '(r2, g2, b2) := c2 in
  (blend_channel r1 r2 fraction,
   blend_channel g1 g2 fraction,
   blend_channel b1 b2 fraction).

Definition interpolate_characteristics (day_float : Q) : outcome characteristics :=
  let day_lower := py_int day_float in
  let day_upper := Z.min 8 (day_lower + 1) in
  let fraction := day_float - inject_Z day_lower in
  if (day_lower =? 8)%Z then getitem cell_characteristics 8%Z
  else
    match getitem cell_characteristics day_lower with
    | Done lower =>
        match getitem cell_characteristics day_upper with
        | Done upper =>
            Done {|
              title := title lower;
              shape := shape lower;
              elongation := blend (elongation lower) (elongation upper) fraction;
              alignment := blend (alignment lower) (alignment upper) fraction;
              connection := blend (connection lower) (connection upper) fraction;
              sarcomere_organization :=
                blend (sarcomere_organization lower)
                      (sarcomere_organization upper) fraction;
              beating_strength :=
                blend (beating_strength lower) (beating_strength upper) fraction;
              beating_sync := blend (beating_sync lower) (beating_sync upper) fraction;
              color_base := blend_color (color_base lower) (color_base upper) fraction;
              nucleus_size := blend (nucleus_size lower) (nucleus_size upper) fraction;
              debris_level := blend (debris_level lower) (debris_level upper) fraction;
              cell_count := blend (cell_count lower) (cell_count upper) fraction;
              cell_clustering :=
                blend (cell_clustering lower) (cell_clustering upper) fraction |}
        | Raise e => Raise e
        | OutOfFuel => OutOfFuel
        end
    | Raise e => Raise e
    | OutOfFuel => OutOfFuel
    end.

(** ** The random source and the canvas *)

(** A number of the half-open unit interval, as [np.random.random()]
    returns it. *)
Record unit_draw : Type := {
  draw_val :> Q;
  draw_range : (Qle_bool 0 draw_val && Qlt_bool draw_val 1)%bool = true
}.

(** What the model takes from numpy. *)
Record numpy : Type := {
  np_sin : Q -> Q;
  np_cos : Q -> Q;
  np_pi : Q;
  np_random : nat -> unit_draw
}.

(** The place of [generate_frame] a drawing call is made from. *)
Inductive layer : Type :=
| ConnectionEdge
| Fragment
| CellBody
| Sarcomere
| Nucleus
| Debris
| Overlay.

Definition rgba : Type := (Z * Z * Z * Z)%type.

(** The calls on [ImageDraw.Draw(image)] that the source makes. *)
Inductive draw_call : Type :=
| Ellipse (xy : Q * Q * Q * Q) (fill : rgba)
| Line (p1 p2 : Q * Q) (fill : rgba) (width : Z)
| Rectangle (xy : Q * Q * Q * Q) (fill : rgba).

Definition drawn : Type := (layer * draw_call)%type.

Record image : Type := {
  size : Z * Z;
  background : Z * Z * Z;
  calls : list drawn
}.

(** The mutable state: how many random numbers were consumed, and the
    calls made so far on the image under construction. *)
Record state : Type := {
  cursor : nat;
  canvas : list drawn
}.

Definition M (A : Type) : Type := state -> outcome (A * state).

Definition ret {A : Type} (a : A) : M A := fun s => Done (a, s).

Definition bind {A B : Type} (m : M A) (k : A -> M B) : M B :=
  fun s =>
    match m s with
    | Done (a, s') => k a s'
    | Raise e => Raise e
    | OutOfFuel => OutOfFuel
    end.

Definition raise {A : Type} (e : exn) : M A := fun _ => Raise e.

Definition out_of_fuel {A : Type} : M A := fun _ => OutOfFuel.

Definition lift {A : Type} (o : outcome A) : M A :=
  fun s =>
    match o with
    | Done a => Done (a, s)
    | Raise e => Raise e
    | OutOfFuel => OutOfFuel
    end.

Declare Scope monad_scope.
Delimit Scope monad_scope with monad.
Notation "x <- m ;; k" := (bind m (fun x => k))
  (at level 61, m at next level, right associativity) : monad_scope.
Notation "' pat <- m ;; k" := (bind m (fun x => match x with pat => k end))
  (at level 61, pat pattern, m at next level, right associativity) : monad_scope.
Notation "m ;; k" := (bind m (fun _ => k))
  (at level 61, right associativity) : monad_scope.
Local Open Scope monad_scope.

(** [for a in l: s = body(a, s)]: a [for] loop with its local variables
    [s] threaded through. *)
Fixpoint for_in {A S : Type} (l : list A) (body : A -> S -> M S) (s : S) : M S :=
  match l with
  | [] => ret s
  | a :: l' => s' <- body a s ;; for_in l' body s'
  end.

(** [while cond(s): s = body(s)], with fuel bounding the iterations. *)
Fixpoint while_loop {S : Type} (fuel : nat) (cond : S -> bool)
    (body : S -> M S) (s : S) : M S :=
  if cond s then
    match fuel with
    | O => out_of_fuel
    | Datatypes.S fuel' => s' <- body s ;; while_loop fuel' cond body s'
    end
  else ret s.

(** [range(lo, hi)]. *)
Definition range (lo hi : Z) : list Z :=
  map (fun k => (lo + Z.of_nat k)%Z) (seq 0 (Z.to_nat (hi - lo))).

(** [l[i]] on a list, negative indices counting from the end. *)
Definition list_getitem {A : Type} (l : list A) (i : Z) : outcome A :=
  let n := Z.of_nat (List.length l) in
  let j := if (i <? 0)%Z then (i + n)%Z else i in
  if (j <? 0)%Z then Raise IndexError
  else match nth_error l (Z.to_nat j) with
       | Some a => Done a
       | None => Raise IndexError
       end.

(** [len(l)]. *)
Definition len {A : Type} (l : list A) : Z := Z.of_nat (List.length l).

(** ** The frame composer *)

Section Render.

Variable np : numpy.

(** [np.random.random()]. *)
Definition random : M Q :=
  fun s =>
    Done (draw_val (np_random np (cursor s)),
          {| cursor := S (cursor s); canvas := canvas s |}).

(** [np.random.randint(low, high)]: an integer of [low, high). *)
Definition randint (low high : Z) : M Z :=
  if (low <? high)%Z then
    u <- random ;;
    ret (low + py_int (u * inject_Z (high - low)))%Z
  else raise ValueError.

(** One call on [draw], made from place [l] of the source. *)
Definition draw (l : layer) (c : draw_call) : M unit :=
  fun s => Done (tt, {| cursor := cursor s; canvas := canvas s ++ [(l, c)] |}).

(** [Image.new('RGB', ...)]: drawing starts on an empty canvas. *)
Definition new_image : M unit :=
  fun s => Done (tt, {| cursor := cursor s; canvas := [] |}).

Definition get_canvas : M (list drawn) :=
  fun s => Done (canvas s, s).

(** The color tuple extended with an alpha channel. *)
Definition with_alpha (c : Z * Z * Z) (alpha : Z) : rgba :=
  let '(r, g, b) := c in (r, g, b, alpha).

(** [min(int(characteristics["cell_count"] * 0.8), 15)]. *)
Definition reduced_cell_count (ch : characteristics) : Z :=
  Z.min (py_int (cell_count ch * 0.8)) 15.

(** [min(3, max(2, int(characteristics["cell_clustering"] * 3)))]. *)
Definition num_clusters (ch : characteristics) : Z :=
  Z.min 3 (Z.max 2 (py_int (cell_clustering ch * 3))).

(** Lines 189-194: the cluster centers. *)
Definition make_cluster_centers (ch : characteristics)
    (frame_width frame_height : Z) : M (list (Q * Q)) :=
  for_in (range 0 (num_clusters ch))
    (fun _ cluster_centers =>
       u <- random ;;
       v <- random ;;
       ret (cluster_centers ++
              [(100 + u * inject_Z (frame_width - 200),
                100 + v * inject_Z (frame_height - 200))]))
    [].

(** Lines 197-204: the connections between clusters. *)
Definition draw_connections (ch : characteristics)
    (cluster_centers : list (Q * Q)) : M unit :=
  if Qlt_bool 0.4 (connection ch) then
    for_in (range 0 (len cluster_centers))
      (fun i _ =>
         for_in (range (i + 1) (len cluster_centers))
           (fun j _ =>
              u <- random ;;
              if Qlt_bool u (connection ch) then
                p1 <- lift (list_getitem cluster_centers i) ;;
                p2 <- lift (list_getitem cluster_centers j) ;;
                let conn_color := with_alpha (color_base ch) 120 in
                draw ConnectionEdge (Line p1 p2 conn_color 2)
              else ret tt)
           tt)
      tt
  else ret tt.

(** Lines 250-257: three fragments in place of a cell. *)
Definition draw_fragments (ch : characteristics) (x y : Q) : M unit :=
  let num_fragments := 3%Z in
  for_in (range 0 num_fragments)
    (fun _ _ =>
       u <- random ;;
       let frag_x := x + u * 15 - 7 in
       v <- random ;;
       let frag_y := y + v * 15 - 7 in
       w <- random ;;
       let frag_size := 4 + w * 4 in
       let frag_color := with_alpha (color_base ch) 150 in
       draw Fragment
         (Ellipse (frag_x, frag_y, frag_x + frag_size, frag_y + frag_size)
                  frag_color))
    tt.

(** Lines 273-296: the sarcomere lines of one cell. *)
Definition draw_sarcomeres (ch : characteristics)
    (x y cell_width cell_height : Q) : M unit :=
  if Qlt_bool 0.3 (sarcomere_organization ch) then
    let num_lines := 3%Z in
    for_in (range 0 num_lines)
      (fun i _ =>
         let line_position :=
           y + cell_height * (inject_Z i + 1) / (inject_Z num_lines + 1) in
         let line_length := cell_width * 0.8 in
         let line_start := x + (cell_width - line_length) / 2 in
         let line_end := line_start + line_length in
         let '(r, g, b) := color_base ch in
         let line_color :=
           (Z.max (r - 50) 0, Z.max (g - 50) 0, Z.max (b - 50) 0, 150)%Z in
         broken <-
           (if Qlt_bool (sarcomere_organization ch) 0.5 then
              u <- random ;; ret (Qlt_bool 0.5 u)
            else ret false) ;;
         if broken : bool then
           let segments := 2%Z in
           for_in (range 0 segments)
             (fun s _ =>
                u <- random ;;
                if Qlt_bool u 0.7 then
                  let seg_start :=
                    line_start + (line_length * inject_Z s / inject_Z segments) in
                  let seg_end :=
                    line_start
                    + (line_length * (inject_Z s + 1) / inject_Z segments) in
                  draw Sarcomere
                    (Line (seg_start, line_position) (seg_end, line_position)
                          line_color 1)
                else ret tt)
             tt
         else
           draw Sarcomere
             (Line (line_start, line_position) (line_end, line_position)
                   line_color 1))
      tt
  else ret tt.

(** Lines 299-309: the nucleus of one cell. *)
Definition draw_nucleus (ch : characteristics)
    (x y cell_width cell_height : Q) : M unit :=
  u <- random ;;
  if Qlt_bool u 0.8 then
    let nucleus_width := cell_width * nucleus_size ch in
    let nucleus_height := cell_height * nucleus_size ch in
    let nucleus_x := x + (cell_width - nucleus_width) / 2 in
    let nucleus_y := y + (cell_height - nucleus_height) / 2 in
    let nucleus_color := (102, 102, 204, 180)%Z in
    draw Nucleus
      (Ellipse (nucleus_x, nucleus_y,
                nucleus_x + nucleus_width, nucleus_y + nucleus_height)
               nucleus_color)
  else ret tt.

(** Lines 265-311: the cell body, its sarcomeres and its nucleus, then
    [cells_drawn += 1]. *)
Definition draw_whole_cell (ch : characteristics)
    (x y cell_width cell_height : Q) (cells_drawn : Z) : M Z :=
  let cell_alpha := 180%Z in
  let cell_color := with_alpha (color_base ch) cell_alpha in
  draw CellBody (Ellipse (x, y, x + cell_width, y + cell_height) cell_color) ;;
  draw_sarcomeres ch x y cell_width cell_height ;;
  draw_nucleus ch x y cell_width cell_height ;;
  ret (cells_drawn + 1)%Z.

Definition elongated_shapes : list string :=
  ["slightly_elongated"; "elongated"; "well_elongated"; "fully_elongated"]%string.

(** Lines 224-311: one iteration of the inner [for] loop; it returns the
    new value of [cells_drawn]. *)
Definition draw_cell (ch : characteristics) (beat_pulse cluster_x cluster_y : Q)
    (cells_drawn : Z) : M Z :=
  let cluster_radius := 20 + 15 * cell_clustering ch in
  u <- random ;;
  let angle := u * 2 * np_pi np in
  v <- random ;;
  let distance := v * cluster_radius in
  let x := cluster_x + np_cos np angle * distance in
  let y := cluster_y + np_sin np angle * distance in
  let base_width := 15 in
  let beat_effect := 1.0 + beat_pulse * beating_strength ch * 0.3 in
  if String.eqb (shape ch) "round" then
    let cell_width := base_width * beat_effect in
    let cell_height := cell_width in
    draw_whole_cell ch x y cell_width cell_height cells_drawn
  else if existsb (String.eqb (shape ch)) elongated_shapes then
    let cell_width := base_width * beat_effect in
    let cell_height := base_width * elongation ch * beat_effect in
    w <- random ;;
    if Qlt_bool w (alignment ch) then
      draw_whole_cell ch x y cell_height cell_width cells_drawn
    else
      draw_whole_cell ch x y cell_width cell_height cells_drawn
  else
    w <- random ;;
    if Qlt_bool w 0.6 && Qlt_bool 0.5 (debris_level ch) then
      draw_fragments ch x y ;;
      ret (cells_drawn + 1)%Z
    else
      let cell_width := base_width * beat_effect * 0.8 in
      let cell_height := base_width * elongation ch * beat_effect * 0.8 in
      draw_whole_cell ch x y cell_width cell_height cells_drawn.

(** Lines 207-311: the cells, distributed among the clusters.  The local
    variables of the [while] loop are [(cells_drawn, clusters_used)]. *)
Definition draw_cells (fuel : nat) (ch : characteristics) (beat_pulse : Q)
    (cluster_centers : list (Q * Q)) : M (Z * Z) :=
  while_loop fuel
    (fun '(cells_drawn, _) => (cells_drawn <? reduced_cell_count ch)%Z)
    (fun '(cells_drawn, clusters_used) =>
       '(cluster_x, cluster_y, clusters_used) <-
         (if (clusters_used <? len cluster_centers)%Z then
            c <- lift (list_getitem cluster_centers clusters_used) ;;
            ret (c, (clusters_used + 1)%Z)
          else
            cluster_index <- randint 0 (len cluster_centers) ;;
            c <- lift (list_getitem cluster_centers cluster_index) ;;
            ret (c, clusters_used)) ;;
       let cells_in_cluster := Z.min 5 (reduced_cell_count ch - cells_drawn) in
       cells_drawn <-
         for_in (range 0 cells_in_cluster)
           (fun _ cells_drawn => draw_cell ch beat_pulse cluster_x cluster_y cells_drawn)
           cells_drawn ;;
       ret (cells_drawn, clusters_used))
    (0%Z, 0%Z).

(** Lines 314-327: the debris. *)
Definition draw_debris (ch : characteristics) (frame_width frame_height : Z) : M unit :=
  let debris_count := py_int (debris_level ch * 80) in
  for_in (range 0 debris_count)
    (fun _ _ =>
       u <- random ;;
       let debris_x := u * inject_Z frame_width in
       v <- random ;;
       let debris_y := v * inject_Z frame_height in
       w <- random ;;
       let debris_size := 1 + w * 3 in
       let debris_color :=
         if Qlt_bool (debris_level ch) 0.5 then (180, 180, 180, 80)%Z
         else (160, 100, 100, 100)%Z in
       draw Debris
         (Ellipse (debris_x, debris_y, debris_x + debris_size, debris_y + debris_size)
                  debris_color))
    tt.

(** [generate_frame]; [fuel] bounds the iterations of the [while] loop.
    Lines 330-331 compute [day_decimal] and [day_int] and never use
    them; they are left out. *)
Definition generate_frame (fuel : nat) (ch : characteristics) (time_point : Q)
    (frame_width frame_height : Z) : M image :=
  new_image ;;
  let beat_frequency := 1.0 + beating_strength ch in
  let beat_phase := mod1 (time_point * beat_frequency) in
  let beat_pulse := np_sin np (beat_phase * np_pi np) in
  cluster_centers <- make_cluster_centers ch frame_width frame_height ;;
  draw_connections ch cluster_centers ;;
  draw_cells fuel ch beat_pulse cluster_centers ;;
  draw_debris ch frame_width frame_height ;;
  let text_bg := (240, 240, 240, 180)%Z in
  draw Overlay (Rectangle (10, 10, 160, 30) text_bg) ;;
  cs <- get_canvas ;;
  ret {| size := (frame_width, frame_height);
         background := (255, 255, 255)%Z;
         calls := cs |}.

End Render.

(** ** The animation assembler *)

(** [np.linspace(start, stop, num)] with its default [endpoint=True]. *)
Definition linspace (start stop : Q) (num : Z) : outcome (list Q) :=
  if (num <? 0)%Z then Raise ValueError
  else
    let div := (num - 1)%Z in
    let delta := stop - start in
    let step := delta / inject_Z div in
    Done (map (fun i =>
                 if ((1 <? num) && (i =? div))%Z then stop
                 else if (0 <? div)%Z then inject_Z i * step + start
                 else inject_Z i * delta + start)
              (range 0 num)).

(** The dict [duration_map]: milliseconds per frame. *)
Definition duration_map (speed : string) : option Z :=
  if String.eqb speed "Slow" then Some 500%Z
  else if String.eqb speed "Medium" then Some 250%Z
  else if String.eqb speed "Fast" then Some 125%Z
  else None.

(** The dict [day_range_map]. *)
Definition day_range_map (day_selection : string) : option (Q * Q) :=
  if String.eqb day_selection "All Days (1-8)" then Some (1.0, 8.0)
  else if String.eqb day_selection "Early (1-3)" then Some (1.0, 3.0)
  else if String.eqb day_selection "Middle (3-6)" then Some (3.0, 6.0)
  else if String.eqb day_selection "Late (6-8)" then Some (6.0, 8.0)
  else None.

(** [d[k]] on a dict with string keys. *)
Definition getitem_str {A : Type} (d : string -> option A) (k : string) : outcome A :=
  match d k with
  | Some v => Done v
  | None => Raise (KeyErrorStr k)
  end.

(** Lines 431-434. *)
Definition total_keyframes (min_day max_day : Q) : Z :=
  if Qle_bool (max_day - min_day) 2 then 12%Z
  else py_int (16 * (max_day - min_day) / 7).

(** What [sample_frames[0].save(..., save_all=True, ...)] writes. *)
Record animation : Type := {
  frames : list image;
  duration : Z;
  loop : Z
}.

Section Assemble.

Variable np : numpy.

(** Lines 427-464: the body of the [if generate_button:] block, for the
    day range [(min_day, max_day)]. *)
Definition assemble (fuel : nat) (min_day max_day : Q) (animation_speed : string)
    : M animation :=
  let total_keyframes := total_keyframes min_day max_day in
  day_positions <- lift (linspace min_day max_day total_keyframes) ;;
  sample_frames <-
    for_in day_positions
      (fun day_decimal sample_frames =>
         characteristics <- lift (interpolate_characteristics day_decimal) ;;
         let time_point := (day_decimal - 1) * (60 / 7) in
         frame <- generate_frame np fuel characteristics time_point 400 300 ;;
         ret (sample_frames ++ [frame]))
      [] ;;
  frame_duration <- lift (getitem_str duration_map animation_speed) ;;
  match sample_frames with
  | [] => raise IndexError
  | _ :: _ =>
      ret {| frames := sample_frames; duration := frame_duration; loop := 0 |}
  end.

(** The [if generate_button:] block, from the widgets' values. *)
Definition generate_animation (fuel : nat) (day_selection animation_speed : string)
    : M animation :=
  '(min_day, max_day) <- lift (getitem_str day_range_map day_selection) ;;
  assemble fuel min_day max_day animation_speed.

End Assemble.

(** ** Readings of a frame *)

(** The calls of an image made from place [l]. *)
Definition on_layer (l : layer) (d : drawn) : bool :=
  match fst d, l with
  | ConnectionEdge, ConnectionEdge
  | Fragment, Fragment
  | CellBody, CellBody
  | Sarcomere, Sarcomere
  | Nucleus, Nucleus
  | Debris, Debris
  | Overlay, Overlay => true
  | _, _ => false
  end.

Definition count_layer (l : layer) (cs : list drawn) : nat :=
  List.length (filter (on_layer l) cs).

(** The record [ch] with another cell count. *)
Definition with_cell_count (ch : characteristics) (n : Q) : characteristics := {|
  title := title ch;
  shape := shape ch;
  elongation := elongation ch;
  alignment := alignment ch;
  connection := connection ch;
  sarcomere_organization := sarcomere_organization ch;
  beating_strength := beating_strength ch;
  beating_sync := beating_sync ch;
  color_base := color_base ch;
  nucleus_size := nucleus_size ch;
  debris_level := debris_level ch;
  cell_count := n;
  cell_clustering := cell_clustering ch |}.

(** The stream that always draws [q]. *)
Definition constant_draws (u : unit_draw) : nat -> unit_draw := fun _ => u.

Definition half : unit_draw := {| draw_val := 1 # 2; draw_range := eq_refl |}.

(** A numpy whose [sin] and [cos] are the first terms of their series and
    whose random source always draws one half: enough to run the model. *)
Definition sample_numpy : numpy := {|
  np_sin := fun x => x - x * x * x / 6;
  np_cos := fun x => 1 - x * x / 2;
  np_pi := 3.14159;
  np_random := constant_draws half
|}.

Definition initial_state : state := {| cursor := 0; canvas := [] |}.

(** ** Predicates of the statements *)

(** [x] lies between [a] and [b], in either order, bounds included. *)
Definition between (a b x : Q) : Prop :=
  (a <= x /\ x <= b) \/ (b <= x /\ x <= a).

Definition betweenZ (a b x : Z) : Prop :=
  (a <= x /\ x <= b)%Z \/ (b <= x /\ x <= a)%Z.

Definition between_color (a b x : Z * Z * Z) : Prop :=
  let '(r1, g1, b1) := a in
  let '(r2, g2, b2) := b in
  let '(r, g, bl) := x in
  betweenZ r1 r2 r /\ betweenZ g1 g2 g /\ betweenZ b1 b2 bl.

(** Every numeric field and every color channel of [r] lies between the
    values of [lower] and [upper]. *)
Definition within_anchors (lower upper r : characteristics) : Prop :=
  between (elongation lower) (elongation upper) (elongation r)
  /\ between (alignment lower) (alignment upper) (alignment r)
  /\ between (connection lower) (connection upper) (connection r)
  /\ between (sarcomere_organization lower) (sarcomere_organization upper)
             (sarcomere_organization r)
  /\ between (beating_strength lower) (beating_strength upper) (beating_strength r)
  /\ between (beating_sync lower) (beating_sync upper) (beating_sync r)
  /\ between_color (color_base lower) (color_base upper) (color_base r)
  /\ between (nucleus_size lower) (nucleus_size upper) (nucleus_size r)
  /\ between (debris_level lower) (debris_level upper) (debris_level r)
  /\ between (cell_count lower) (cell_count upper) (cell_count r)
  /\ between (cell_clustering lower) (cell_clustering upper) (cell_clustering r).

(** Equality of two records field for field, numbers compared as
    numbers (the [==] of Python on the two dicts). *)
Definition characteristics_eq (r1 r2 : characteristics) : Prop :=
  title r1 = title r2
  /\ shape r1 = shape r2
  /\ elongation r1 == elongation r2
  /\ alignment r1 == alignment r2
  /\ connection r1 == connection r2
  /\ sarcomere_organization r1 == sarcomere_organization r2
  /\ beating_strength r1 == beating_strength r2
  /\ beating_sync r1 == beating_sync r2
  /\ color_base r1 = color_base r2
  /\ nucleus_size r1 == nucleus_size r2
  /\ debris_level r1 == debris_level r2
  /\ cell_count r1 == cell_count r2
  /\ cell_clustering r1 == cell_clustering r2.

(** [m] runs to completion from every state; it only appends calls to
    the canvas, and its result and the calls it appended satisfy [post]. *)
Definition emits {A : Type} (m : M A) (post : A -> list drawn -> Prop) : Prop :=
  forall s : state,
    exists (a : A) (s' : state) (added : list drawn),
      m s = Done (a, s')
      /\ canvas s' = canvas s ++ added
      /\ post a added.

(** The cells a list of calls shows, counted in thirds: a whole cell body
    weighs three, each of the three fragments of a broken cell one. *)
Definition cell_thirds (cs : list drawn) : Z :=
  (3 * Z.of_nat (count_layer CellBody cs) + Z.of_nat (count_layer Fragment cs))%Z.

(** The calls appended belong to no cell and are no connection edge. *)
Definition no_cells (cs : list drawn) : Prop :=
  count_layer CellBody cs = 0%nat
  /\ count_layer Fragment cs = 0%nat
  /\ count_layer Sarcomere cs = 0%nat
  /\ count_layer Nucleus cs = 0%nat.

(** The calls appended are neither connection edges nor cell bodies nor
    fragments. *)
Definition no_bodies (cs : list drawn) : Prop :=
  count_layer ConnectionEdge cs = 0%nat
  /\ count_layer CellBody cs = 0%nat
  /\ count_layer Fragment cs = 0%nat.

(** The number of iterations of the [while] loop that distribute [n]
    cells in batches of five. *)
Definition batches (n : Z) : nat := Z.to_nat ((n + 4) / 5).

(** ** The preview (lines 396-415) *)

(** The dict [st.session_state.preview_cache]: frames keyed by floats,
    which compare as numbers; insertion order is kept. *)
Definition preview_cache : Type := list (Q * image).

(** [cache.get(k)]: [None] when [k not in cache]. *)
Fixpoint cache_get (cache : preview_cache) (k : Q) : option image :=
  match cache with
  | [] => None
  | (k', v) :: rest => if Qeq_bool k' k then Some v else cache_get rest k
  end.

(** [cache[k] = v]: the value of an existing key is replaced in place, a
    new key goes last. *)
Fixpoint cache_set (cache : preview_cache) (k : Q) (v : image) : preview_cache :=
  match cache with
  | [] => [(k, v)]
  | (k', v') :: rest =>
      if Qeq_bool k' k then (k', v) :: rest
      else (k', v') :: cache_set rest k v
  end.

(** [round(preview_day * 2) / 2]. *)
Definition day_key_of (preview_day : Q) : Q :=
  inject_Z (py_round (preview_day * 2)) / 2.

(** Lines 404-413: the frame shown for [preview_day], and the cache
    after it. *)
Definition preview (np : numpy) (fuel : nat) (preview_day : Q)
    (cache : preview_cache) : M (image * preview_cache) :=
  let day_key := day_key_of preview_day in
  match cache_get cache day_key with
  | None =>
      characteristics <- lift (interpolate_characteristics day_key) ;;
      let time_point := (day_key - 1) * (60 / 7) in
      preview_frame <- generate_frame np fuel characteristics time_point 400 300 ;;
      ret (preview_frame, cache_set cache day_key preview_frame)
  | Some preview_frame => ret (preview_frame, cache)
  end.

(** ** More predicates of the statements *)

(** The ranges the anchor table keeps its fields in. *)
Definition in_table_ranges (r : characteristics) : Prop :=
  (1 <= elongation r /\ elongation r <= 2.2)
  /\ (0.1 <= alignment r /\ alignment r <= 0.9)
  /\ (0.1 <= connection r /\ connection r <= 0.9)
  /\ (0.1 <= sarcomere_organization r /\ sarcomere_organization r <= 0.9)
  /\ (0.1 <= beating_strength r /\ beating_strength r <= 1)
  /\ (0.1 <= beating_sync r /\ beating_sync r <= 0.9)
  /\ (let '(cr, cg, cb) := color_base r in
      (153 <= cr <= 255)%Z /\ (51 <= cg <= 214)%Z /\ (51 <= cb <= 204)%Z)
  /\ (0.25 <= nucleus_size r /\ nucleus_size r <= 0.7)
  /\ (0.1 <= debris_level r /\ debris_level r <= 0.9)
  /\ (8 <= cell_count r /\ cell_count r <= 28)
  /\ (0.1 <= cell_clustering r /\ cell_clustering r <= 0.9).

(** A line drawn between two cluster centers. *)
Definition is_connection_line (ch : characteristics) (d : drawn) : Prop :=
  exists p1 p2,
    d = (ConnectionEdge, Line p1 p2 (with_alpha (color_base ch) 120) 2).

(** A call made while drawing the cells. *)
Definition on_cell_layer (d : drawn) : Prop :=
  fst d = CellBody \/ fst d = Fragment \/ fst d = Sarcomere \/ fst d = Nucleus.

(** The color of the debris: gray below a debris level of 0.5,
    reddish-brown from 0.5 on. *)
Definition debris_color_of (ch : characteristics) : rgba :=
  if Qlt_bool (debris_level ch) 0.5 then (180, 180, 180, 80)%Z
  else (160, 100, 100, 100)%Z.

(** One particle of debris on a canvas of the given size. *)
Definition is_debris (ch : characteristics) (frame_width frame_height : Z)
    (d : drawn) : Prop :=
  exists u v w : unit_draw,
    d = (Debris,
         Ellipse (u * inject_Z frame_width, v * inject_Z frame_height,
                  u * inject_Z frame_width + (1 + w * 3),
                  v * inject_Z frame_height + (1 + w * 3))
                 (debris_color_of ch)).


(** The overlay rectangle of line 335. *)
Definition overlay_call : drawn :=
  (Overlay, Rectangle (10, 10, 160, 30) (240, 240, 240, 180)%Z).

(** What one cell contributes to a frame, in counts of calls. *)
Definition cell_profile (ch : characteristics) (cs : list drawn) : Prop :=
  count_layer ConnectionEdge cs = 0%nat
  /\ count_layer Debris cs = 0%nat
  /\ count_layer Overlay cs = 0%nat
  /\ (count_layer Nucleus cs <= count_layer CellBody cs)%nat
  /\ (count_layer Sarcomere cs <= 6 * count_layer CellBody cs)%nat
  /\ (Qlt_bool 0.3 (sarcomere_organization ch) = false ->
      count_layer Sarcomere cs = 0%nat)
  /\ (Qlt_bool 0.3 (sarcomere_organization ch) = true ->
      Qlt_bool (sarcomere_organization ch) 0.5 = false ->
      count_layer Sarcomere cs = (3 * count_layer CellBody cs)%nat)
  /\ (String.eqb (shape ch) "round"
      || existsb (String.eqb (shape ch)) elongated_shapes
      || negb (Qlt_bool 0.5 (debris_level ch)) = true ->
      count_layer Fragment cs = 0%nat).

(** A point of the inset rectangle that keeps 100 pixels from every
    border of the canvas. *)
Definition in_inset (frame_width frame_height : Z) (p : Q * Q) : Prop :=
  (100 <= fst p /\ fst p <= inject_Z frame_width - 100)
  /\ (100 <= snd p /\ snd p <= inject_Z frame_height - 100).




(** An empty white frame of the default size, and a cache that holds it
    for day 2. *)
Definition blank_frame : image :=
  {| size := (400, 300)%Z; background := (255, 255, 255)%Z; calls := [] |}.

Definition stocked_cache : preview_cache := [(2.0, blank_frame)].

(** * Properties *)

(** ** Truncation and blending *)

Lemma py_int_nonneg (x : Q) : 0 <= x -> py_int x = Qfloor x.
Proof.
  destruct x as [n d]. unfold Qle, py_int, Qfloor. simpl. intros H.
  apply Z.quot_div_nonneg; lia.
Qed.

Lemma py_int_nonpos (x : Q) : x <= 0 -> py_int x = Qceiling x.
Proof.
  destruct x as [n d]. unfold Qle, py_int, Qceiling, Qfloor. simpl. intros H.
  rewrite <- (Z.opp_involutive n) at 1.
  rewrite Z.quot_opp_l by lia.
  f_equal. apply Z.quot_div_nonneg; lia.
Qed.

Lemma py_int_inject_Z (z : Z) : py_int (inject_Z z) = z.
Proof. unfold py_int, inject_Z. simpl. apply Z.quot_1_r. Qed.

(** Truncation never leaves an interval with integer end points. *)
Lemma py_int_between (a b : Z) (x : Q) :
  inject_Z a <= x -> x <= inject_Z b -> (a <= py_int x <= b)%Z.
Proof.
  intros Ha Hb.
  destruct (Qlt_le_dec x 0) as [Hneg | Hpos].
  - rewrite py_int_nonpos by lra. unfold Qceiling. split.
    + assert (H : (Qfloor (- x) <= Qfloor (inject_Z (- a)))%Z).
      { apply Qfloor_resp_le. rewrite inject_Z_opp. lra. }
      rewrite Qfloor_Z in H. lia.
    + assert (H : (Qfloor (inject_Z (- b)) <= Qfloor (- x))%Z).
      { apply Qfloor_resp_le. rewrite inject_Z_opp. lra. }
      rewrite Qfloor_Z in H. lia.
  - rewrite py_int_nonneg by assumption. split.
    + rewrite <- (Qfloor_Z a). now apply Qfloor_resp_le.
    + rewrite <- (Qfloor_Z b). now apply Qfloor_resp_le.
Qed.

(** The fractional part left by truncating a non-negative float. *)
Lemma fraction_range (x : Q) :
  0 <= x -> 0 <= x - inject_Z (py_int x) /\ x - inject_Z (py_int x) < 1.
Proof.
  intros Hx. rewrite py_int_nonneg by assumption.
  pose proof (Qfloor_le x) as Hlo. pose proof (Qlt_floor x) as Hhi.
  rewrite inject_Z_plus in Hhi. change (inject_Z 1) with 1 in Hhi.
  split; lra.
Qed.

Lemma blend_between (a b t : Q) : 0 <= t <= 1 -> between a b (blend a b t).
Proof.
  intros Ht. unfold between, blend.
  destruct (Qlt_le_dec a b); [left | right]; split; nra.
Qed.

Lemma blend_channel_between (a b : Z) (t : Q) :
  0 <= t <= 1 -> betweenZ a b (blend_channel a b t).
Proof.
  intros Ht. unfold betweenZ, blend_channel.
  destruct (Z_lt_le_dec a b) as [Hab | Hab]; [left | right];
    apply py_int_between.
  all: assert (Hq : inject_Z a <= inject_Z b \/ inject_Z b <= inject_Z a)
         by (rewrite <- !Zle_Qle; lia).
  all: assert (Hq' : inject_Z a < inject_Z b \/ inject_Z b <= inject_Z a)
         by (rewrite <- Zlt_Qlt, <- Zle_Qle; lia).
  all: try (rewrite Zlt_Qlt in Hab); try (rewrite Zle_Qle in Hab); nra.
Qed.

Lemma blend_color_between (a b : Z * Z * Z) (t : Q) :
  0 <= t <= 1 -> between_color a b (blend_color a b t).
Proof.
  intros Ht. destruct a as [[r1 g1] b1], b as [[r2 g2] b2]. simpl.
  repeat split; apply blend_channel_between; assumption.
Qed.

Lemma between_refl (a : Q) : between a a a.
Proof. left. split; apply Qle_refl. Qed.

Lemma betweenZ_refl (a : Z) : betweenZ a a a.
Proof. left. lia. Qed.

Lemma within_anchors_refl (r : characteristics) : within_anchors r r r.
Proof.
  unfold within_anchors. repeat split; try apply between_refl.
  destruct (color_base r) as [[cr cg] cb]. simpl.
  repeat split; apply betweenZ_refl.
Qed.

(** ** The interpolator *)

(** The day below a day of [1, 8] is one of the eight keys. *)
Lemma day_lower_range (day : Q) :
  1 <= day -> day <= 8 -> (1 <= py_int day <= 8)%Z.
Proof. intros H1 H8. apply py_int_between; assumption. Qed.

Lemma cell_characteristics_defined (k : Z) :
  (1 <= k <= 8)%Z -> exists r, cell_characteristics k = Some r.
Proof.
  intros Hk.
  assert (H : k = 1%Z \/ k = 2%Z \/ k = 3%Z \/ k = 4%Z \/ k = 5%Z \/ k = 6%Z
              \/ k = 7%Z \/ k = 8%Z) by lia.
  repeat (destruct H as [-> | H]); try subst k; eexists; reflexivity.
Qed.

(** What the interpolator returns between two anchors. *)
Lemma interpolate_unfold (day : Q) (lower upper : characteristics) :
  py_int day <> 8%Z ->
  cell_characteristics (py_int day) = Some lower ->
  cell_characteristics (Z.min 8 (py_int day + 1)) = Some upper ->
  exists r,
    interpolate_characteristics day = Done r
    /\ title r = title lower
    /\ shape r = shape lower
    /\ (0 <= day -> within_anchors lower upper r).
Proof.
  intros Hne Hlo Hup. unfold interpolate_characteristics.
  apply Z.eqb_neq in Hne. rewrite Hne.
  unfold getitem. rewrite Hlo, Hup.
  eexists. split; [reflexivity |]. simpl. split; [reflexivity |].
  split; [reflexivity |]. intros Hday.
  destruct (fraction_range day Hday) as [Hf0 Hf1].
  assert (Hf : 0 <= day - inject_Z (py_int day) <= 1) by (split; lra).
  unfold within_anchors; simpl.
  repeat split;
    first [ apply blend_between; exact Hf | idtac ].
  apply blend_color_between; exact Hf.
Qed.

(** On [1, 8] the interpolator returns a record. *)
Lemma interpolate_returns (day : Q) :
  1 <= day -> day <= 8 -> exists r, interpolate_characteristics day = Done r.
Proof.
  intros H1 H8.
  pose proof (day_lower_range day H1 H8) as Hk.
  destruct (Z.eq_dec (py_int day) 8) as [Heq | Hne].
  - exists day8. unfold interpolate_characteristics. rewrite Heq. reflexivity.
  - destruct (cell_characteristics_defined (py_int day) Hk) as [lower Hlo].
    destruct (cell_characteristics_defined (Z.min 8 (py_int day + 1)))
      as [upper Hup]; [lia |].
    destruct (interpolate_unfold day lower upper Hne Hlo Hup) as (r & Hr & _).
    exists r. exact Hr.
Qed.

(** C1. For every day of [1, 8] the interpolator returns a record, and
    every numeric field and every color channel of it lies between the
    values of the anchor of the day below and of the anchor of the day
    above ([min(8, below + 1)]), bounds included. *)
Theorem interpolate_within_anchors (day : Q) :
  1 <= day -> day <= 8 ->
  exists lower upper r,
    cell_characteristics (py_int day) = Some lower
    /\ cell_characteristics (Z.min 8 (py_int day + 1)) = Some upper
    /\ interpolate_characteristics day = Done r
    /\ within_anchors lower upper r.
Proof.
  intros H1 H8.
  pose proof (day_lower_range day H1 H8) as Hk.
  destruct (cell_characteristics_defined (py_int day) Hk) as [lower Hlo].
  destruct (cell_characteristics_defined (Z.min 8 (py_int day + 1))) as [upper Hup];
    [lia |].
  exists lower, upper.
  destruct (Z.eq_dec (py_int day) 8) as [Heq | Hne].
  - exists day8.
    assert (Hl : lower = day8) by (rewrite Heq in Hlo; simpl in Hlo; congruence).
    assert (Hu : upper = day8) by (rewrite Heq in Hup; simpl in Hup; congruence).
    subst lower upper.
    split; [assumption |]. split; [assumption |]. split.
    + unfold interpolate_characteristics. rewrite Heq. reflexivity.
    + apply within_anchors_refl.
  - destruct (interpolate_unfold day lower upper Hne Hlo Hup)
      as (r & Hr & _ & _ & Hw).
    exists r.
    split; [assumption |]. split; [assumption |]. split; [assumption |].
    apply Hw. lra.
Qed.

Lemma interpolate_within_anchors_witness :
  1 <= 2.5
  /\ 2.5 <= 8
  /\ exists lower upper r,
       cell_characteristics (py_int 2.5) = Some lower
       /\ cell_characteristics (Z.min 8 (py_int 2.5 + 1)) = Some upper
       /\ interpolate_characteristics 2.5 = Done r
       /\ within_anchors lower upper r.
Proof.
  split; [unfold Qle; simpl; lia |]. split; [unfold Qle; simpl; lia |].
  apply (interpolate_within_anchors 2.5); unfold Qle; simpl; lia.
Defined.

(** C2. For every day [d] of [1, 8) the title and the shape of the
    interpolated record are those of the anchor of the day below, and
    the shape is the one the interpolator returns at that day itself. *)
Theorem interpolate_categorical (d : Q) :
  1 <= d -> d < 8 ->
  exists lower r r0,
    cell_characteristics (py_int d) = Some lower
    /\ interpolate_characteristics d = Done r
    /\ title r = title lower
    /\ shape r = shape lower
    /\ interpolate_characteristics (inject_Z (py_int d)) = Done r0
    /\ shape r = shape r0
    /\ title r = title r0.
Proof.
  intros H1 H8.
  assert (Hk : (1 <= py_int d <= 7)%Z).
  { pose proof (day_lower_range d H1 (Qlt_le_weak _ _ H8)) as Hk.
    destruct (Z.eq_dec (py_int d) 8) as [Heq | Hne]; [| lia].
    destruct (fraction_range d) as [Hf _]; [lra |].
    rewrite Heq in Hf. change (inject_Z 8) with 8 in Hf. lra. }
  destruct (cell_characteristics_defined (py_int d)) as [lower Hlo]; [lia |].
  destruct (cell_characteristics_defined (Z.min 8 (py_int d + 1))) as [upper Hup];
    [lia |].
  destruct (interpolate_unfold d lower upper) as (r & Hr & Ht & Hs & _);
    [lia | assumption | assumption |].
  destruct (interpolate_unfold (inject_Z (py_int d)) lower upper)
    as (r0 & Hr0 & Ht0 & Hs0 & _);
    try (rewrite py_int_inject_Z); [lia | assumption | assumption |].
  exists lower, r, r0. repeat split; congruence.
Qed.

Lemma interpolate_categorical_witness :
  1 <= 6.5
  /\ 6.5 < 8
  /\ exists lower r r0,
       cell_characteristics (py_int 6.5) = Some lower
       /\ interpolate_characteristics 6.5 = Done r
       /\ title r = title lower
       /\ shape r = shape lower
       /\ interpolate_characteristics (inject_Z (py_int 6.5)) = Done r0
       /\ shape r = shape r0
       /\ title r = title r0.
Proof.
  split; [unfold Qle; simpl; lia |]. split; [unfold Qlt; simpl; lia |].
  apply (interpolate_categorical 6.5); [unfold Qle | unfold Qlt]; simpl; lia.
Defined.

(** C3. At day 1.0 the interpolator returns a record equal field for
    field to the anchor of day 1, and at day 8.0 it returns the anchor of
    day 8 itself. *)
Theorem interpolate_end_points :
  cell_characteristics 1 = Some day1
  /\ cell_characteristics 8 = Some day8
  /\ (exists r, interpolate_characteristics 1.0 = Done r
                /\ characteristics_eq r day1)
  /\ interpolate_characteristics 8.0 = Done day8.
Proof.
  split; [reflexivity |]. split; [reflexivity |]. split; [| reflexivity].
  eexists. split; [reflexivity |].
  unfold characteristics_eq; simpl. repeat split; reflexivity.
Qed.

(** Beyond day 9 the lookup of the day below fails. *)
Lemma interpolate_key_error (day : Q) :
  9 <= day -> interpolate_characteristics day = Raise (KeyError (py_int day)).
Proof.
  intros H9.
  assert (Hk : (9 <= py_int day)%Z).
  { rewrite py_int_nonneg by lra. rewrite <- (Qfloor_Z 9).
    apply Qfloor_resp_le. exact H9. }
  unfold interpolate_characteristics.
  assert (Hne : (py_int day =? 8)%Z = false) by (apply Z.eqb_neq; lia).
  rewrite Hne. unfold getitem.
  assert (Hnone : cell_characteristics (py_int day) = None).
  { destruct (py_int day) as [| p |p]; try lia.
    do 4 (destruct p as [p | p |]; try reflexivity; try lia). }
  rewrite Hnone. reflexivity.
Qed.

(** Strictly between day 8 and day 9 the anchor of day 8 is returned. *)
Lemma interpolate_capped (day : Q) :
  8 < day -> day < 9 -> interpolate_characteristics day = Done day8.
Proof.
  intros H8 H9.
  assert (Hk : py_int day = 8%Z).
  { rewrite py_int_nonneg by lra.
    assert (Hlo : (8 <= Qfloor day)%Z).
    { rewrite <- (Qfloor_Z 8). apply Qfloor_resp_le.
      apply Qlt_le_weak. exact H8. }
    assert (Hhi : (Qfloor day < 9)%Z).
    { rewrite Zlt_Qlt. pose proof (Qfloor_le day). change (inject_Z 9) with 9. lra. }
    lia. }
  unfold interpolate_characteristics. rewrite Hk. reflexivity.
Qed.

(** C4 (as stated, refuted). Day 9.0 is greater than 8, and there the
    interpolator raises [KeyError(9)]: [int(9.0)] is 9, the test
    [day_lower == 8] of line 149 fails, and line 154 looks key 9 up in a
    table whose keys are 1 to 8.  It does not return the anchor of
    day 8. *)
Lemma interpolate_day_nine_raises :
  8 < 9.0
  /\ py_int 9.0 = 9%Z
  /\ cell_characteristics 9 = None
  /\ interpolate_characteristics 9.0 = Raise (KeyError 9)
  /\ interpolate_characteristics 9.0 <> Done day8.
Proof. repeat (split; [reflexivity |]). discriminate. Qed.

(** C4 (amended). For a day strictly greater than 8 the interpolator
    returns the anchor of day 8 itself, the record under key 8 of the
    table, with no extrapolation and no error, as long as the day is
    strictly less than 9; from day 9 on it raises [KeyError(int(day))]. *)
Theorem interpolate_clamped_to_day_eight (day : Q) :
  8 < day ->
  cell_characteristics 8 = Some day8
  /\ (day < 9 -> interpolate_characteristics day = Done day8)
  /\ (9 <= day -> interpolate_characteristics day = Raise (KeyError (py_int day))).
Proof.
  intros H8. split; [reflexivity |]. split.
  - intros H9. now apply interpolate_capped.
  - intros H9. now apply interpolate_key_error.
Qed.

Lemma interpolate_clamped_to_day_eight_witness :
  8 < 8.5
  /\ 8.5 < 9
  /\ cell_characteristics 8 = Some day8
  /\ interpolate_characteristics 8.5 = Done day8.
Proof.
  split; [reflexivity |]. split; [reflexivity |].
  destruct (interpolate_clamped_to_day_eight 8.5) as (Htable & Hcap & _);
    [reflexivity |].
  split; [exact Htable |]. apply Hcap. reflexivity.
Defined.

(** ** Rules for running the frame composer *)

Lemma unit_draw_range (u : unit_draw) : 0 <= u /\ u < 1.
Proof.
  destruct u as [q Hq]. simpl.
  apply andb_true_iff in Hq. destruct Hq as [H0 H1].
  apply Qle_bool_iff in H0. unfold Qlt_bool in H1.
  apply negb_true_iff in H1. split; [exact H0 |].
  apply Qnot_le_lt. intros Hle. apply Qle_bool_iff in Hle. congruence.
Qed.

Lemma Qlt_bool_false (x y : Q) : y <= x -> Qlt_bool x y = false.
Proof.
  intros H. unfold Qlt_bool. apply negb_false_iff. now apply Qle_bool_iff.
Qed.

Lemma count_layer_app (l : layer) (xs ys : list drawn) :
  count_layer l (xs ++ ys) = (count_layer l xs + count_layer l ys)%nat.
Proof. unfold count_layer. rewrite filter_app. apply length_app. Qed.

Lemma cell_thirds_app (xs ys : list drawn) :
  cell_thirds (xs ++ ys) = (cell_thirds xs + cell_thirds ys)%Z.
Proof. unfold cell_thirds. rewrite !count_layer_app. lia. Qed.

Lemma range_length (lo hi : Z) : List.length (range lo hi) = Z.to_nat (hi - lo).
Proof. unfold range. rewrite length_map. apply length_seq. Qed.

Lemma range_In (lo hi k : Z) : In k (range lo hi) -> (lo <= k < hi)%Z.
Proof.
  unfold range. rewrite in_map_iff. intros (n & <- & Hn).
  apply in_seq in Hn. lia.
Qed.

Lemma list_getitem_in_range {A : Type} (l : list A) (i : Z) :
  (0 <= i < len l)%Z -> exists a, list_getitem l i = Done a.
Proof.
  unfold len, list_getitem. intros Hi.
  assert (H0 : (i <? 0)%Z = false) by (apply Z.ltb_ge; lia).
  rewrite !H0.
  destruct (nth_error l (Z.to_nat i)) as [a |] eqn:E.
  - now exists a.
  - apply nth_error_None in E. lia.
Qed.

Lemma emits_ret {A : Type} (a : A) (post : A -> list drawn -> Prop) :
  post a [] -> emits (ret a) post.
Proof.
  intros Hpost s. exists a, s, []. rewrite app_nil_r. now repeat split.
Qed.

Lemma emits_bind {A B : Type} (m : M A) (k : A -> M B)
    (post : B -> list drawn -> Prop) :
  emits m (fun a add1 => emits (k a) (fun b add2 => post b (add1 ++ add2))) ->
  emits (bind m k) post.
Proof.
  intros Hm s.
  destruct (Hm s) as (a & s1 & add1 & E1 & C1 & Hk).
  destruct (Hk s1) as (b & s2 & add2 & E2 & C2 & Hpost).
  exists b, s2, (add1 ++ add2). unfold bind. rewrite E1.
  split; [exact E2 |]. split; [| exact Hpost].
  rewrite C2, C1. now rewrite app_assoc.
Qed.

Lemma emits_weaken {A : Type} (m : M A) (post post' : A -> list drawn -> Prop) :
  emits m post -> (forall a add, post a add -> post' a add) -> emits m post'.
Proof.
  intros Hm Hpost s. destruct (Hm s) as (a & s' & add & E & C & H).
  exists a, s', add. auto.
Qed.

Lemma emits_lift {A : Type} (a : A) (post : A -> list drawn -> Prop) :
  post a [] -> emits (lift (Done a)) post.
Proof.
  intros Hpost s. exists a, s, []. rewrite app_nil_r. now repeat split.
Qed.

Lemma emits_draw (l : layer) (c : draw_call) (post : unit -> list drawn -> Prop) :
  post tt [(l, c)] -> emits (draw l c) post.
Proof.
  intros Hpost s. eexists tt, _, [(l, c)]. split; [reflexivity |].
  split; [reflexivity | exact Hpost].
Qed.

Lemma emits_random (np : numpy) (post : Q -> list drawn -> Prop) :
  (forall u : unit_draw, post u []) -> emits (random np) post.
Proof.
  intros Hpost s. eexists _, _, []. split; [reflexivity |].
  simpl. rewrite app_nil_r. split; [reflexivity | apply Hpost].
Qed.

Lemma emits_for_in {A S : Type} (I : nat -> S -> list drawn -> Prop)
    (l : list A) (body : A -> S -> M S) (s0 : S)
    (post : S -> list drawn -> Prop) :
  I 0%nat s0 [] ->
  (forall n a s add,
      In a l -> I n s add ->
      emits (body a s) (fun s' add' => I (Datatypes.S n) s' (add ++ add'))) ->
  (forall s add, I (List.length l) s add -> post s add) ->
  emits (for_in l body s0) post.
Proof.
  intros H0 Hstep Hend.
  enough (G : forall l' n s add0,
             (forall a, In a l' -> In a l) ->
             I n s add0 ->
             emits (for_in l' body s)
                   (fun s' add' => I (n + List.length l')%nat s' (add0 ++ add'))).
  { eapply emits_weaken; [apply (G l 0%nat s0 []); auto |].
    simpl. intros s add H. now apply Hend. }
  induction l' as [| a l' IH]; intros n s add0 Hin HI; simpl.
  - apply emits_ret. rewrite app_nil_r, Nat.add_0_r. exact HI.
  - apply emits_bind.
    eapply emits_weaken; [apply (Hstep n a s add0); auto with datatypes |].
    simpl. intros s1 add1 H1.
    eapply emits_weaken;
      [apply (IH (Datatypes.S n) s1 (add0 ++ add1)); auto with datatypes |].
    simpl. intros s2 add2 H2.
    rewrite <- app_assoc in H2. now rewrite Nat.add_succ_r.
Qed.

Lemma emits_while {S : Type} (I : S -> list drawn -> Prop) (variant : S -> nat)
    (fuel : nat) (cond : S -> bool) (body : S -> M S) (s0 : S)
    (post : S -> list drawn -> Prop) :
  I s0 [] ->
  (variant s0 <= fuel)%nat ->
  (forall s add,
      I s add -> cond s = true ->
      emits (body s)
            (fun s' add' => I s' (add ++ add') /\ (variant s' < variant s)%nat)) ->
  (forall s add, I s add -> cond s = false -> post s add) ->
  emits (while_loop fuel cond body s0) post.
Proof.
  intros H0 Hfuel Hstep Hend.
  enough (G : forall f s add0,
             I s add0 -> (variant s <= f)%nat ->
             emits (while_loop f cond body s)
                   (fun s' add' => I s' (add0 ++ add') /\ cond s' = false)).
  { eapply emits_weaken; [apply (G fuel s0 []); auto |].
    simpl. intros s add [HI Hc]. now apply Hend. }
  induction f as [| f IH]; intros s add0 HI Hv; simpl;
    destruct (cond s) eqn:Hc.
  - exfalso.
    destruct (Hstep s add0 HI Hc {| cursor := 0; canvas := [] |})
      as (s' & _ & _ & _ & _ & _ & Hlt). lia.
  - apply emits_ret. rewrite app_nil_r. auto.
  - apply emits_bind.
    eapply emits_weaken; [apply (Hstep s add0 HI Hc) |].
    simpl. intros s1 add1 [HI1 Hlt].
    eapply emits_weaken; [apply (IH s1 (add0 ++ add1) HI1); lia |].
    simpl. intros s2 add2 [HI2 Hc2]. rewrite <- app_assoc in HI2. auto.
  - apply emits_ret. rewrite app_nil_r. auto.
Qed.

Lemma count_layer_nil (l : layer) : count_layer l [] = 0%nat.
Proof. reflexivity. Qed.

Lemma count_layer_cons (l : layer) (d : drawn) (xs : list drawn) :
  count_layer l (d :: xs)
  = ((if on_layer l d then 1 else 0) + count_layer l xs)%nat.
Proof. unfold count_layer. simpl. destruct (on_layer l d); reflexivity. Qed.


(** Normalise the counts of a concatenation of appended calls. *)
Ltac counts :=
  unfold no_cells, no_bodies, cell_thirds in *;
  rewrite ?count_layer_app, ?count_layer_cons, ?count_layer_nil in *;
  cbn [on_layer fst] in *;
  repeat match goal with
         | H : _ /\ _ |- _ => destruct H
         end;
  repeat split; subst; try reflexivity; try lia.

(** One step of the frame composer. *)
Ltac run_step :=
  cbv beta zeta;
  lazymatch goal with
  | |- emits (bind _ _) _ => apply emits_bind
  | |- emits (random _) _ => apply emits_random; intros ?
  | |- emits (draw _ _) _ => apply emits_draw
  | |- emits (ret _) _ => apply emits_ret
  | |- emits (lift (Done _)) _ => apply emits_lift
  | |- emits (if ?b then _ else _) _ => destruct b eqn:?
  | |- emits (match ?p with (_, _) => _ end) _ => destruct p eqn:?
  | |- emits (for_in (_ :: _) _ _) _ => cbn [for_in]
  | |- emits (for_in [] _ _) _ => cbn [for_in]
  end.

Ltac run := repeat run_step.

(** ** The phases of [generate_frame] *)

Lemma num_clusters_range (ch : characteristics) : (2 <= num_clusters ch <= 3)%Z.
Proof. unfold num_clusters. lia. Qed.

Lemma reduced_cell_count_le (ch : characteristics) : (reduced_cell_count ch <= 15)%Z.
Proof. unfold reduced_cell_count. lia. Qed.

Lemma py_int_scale (u : unit_draw) (n : Z) :
  (0 < n)%Z -> (0 <= py_int (u * inject_Z n) < n)%Z.
Proof.
  intros Hn. destruct (unit_draw_range u) as [H0 H1].
  assert (Hq : 0 < inject_Z n) by (change 0 with (inject_Z 0); now rewrite <- Zlt_Qlt).
  assert (Hx : 0 <= u * inject_Z n) by nra.
  rewrite py_int_nonneg by exact Hx. split.
  - rewrite <- (Qfloor_Z 0). apply Qfloor_resp_le. exact Hx.
  - rewrite Zlt_Qlt. pose proof (Qfloor_le (u * inject_Z n)). nra.
Qed.

Lemma randint_emits (np : numpy) (low high : Z) (post : Z -> list drawn -> Prop) :
  (low < high)%Z ->
  (forall z, (low <= z < high)%Z -> post z []) ->
  emits (randint np low high) post.
Proof.
  intros Hlt Hpost. unfold randint.
  apply Z.ltb_lt in Hlt. rewrite Hlt. apply Z.ltb_lt in Hlt.
  run. simpl. apply Hpost.
  pose proof (py_int_scale u (high - low)). lia.
Qed.

Lemma make_cluster_centers_emits (np : numpy) (ch : characteristics)
    (frame_width frame_height : Z) (post : list (Q * Q) -> list drawn -> Prop) :
  (forall centers, len centers = num_clusters ch -> post centers []) ->
  emits (make_cluster_centers np ch frame_width frame_height) post.
Proof.
  intros Hpost. unfold make_cluster_centers.
  apply emits_for_in
    with (I := fun n (cs : list (Q * Q)) add => add = [] /\ List.length cs = n).
  - split; reflexivity.
  - intros n a cs add _ [-> Hlen]. run. simpl. split; [reflexivity |].
    rewrite length_app. simpl. lia.
  - intros cs add [-> Hlen]. apply Hpost. unfold len. rewrite Hlen, range_length.
    pose proof (num_clusters_range ch). lia.
Qed.

Lemma draw_connections_emits (np : numpy) (ch : characteristics)
    (cluster_centers : list (Q * Q)) (post : unit -> list drawn -> Prop) :
  (forall add,
      no_cells add ->
      (Qlt_bool 0.4 (connection ch) = false -> add = []) ->
      post tt add) ->
  emits (draw_connections np ch cluster_centers) post.
Proof.
  intros Hpost. unfold draw_connections.
  destruct (Qlt_bool 0.4 (connection ch)).
  2:{ apply emits_ret. apply Hpost; [counts | reflexivity]. }
  apply emits_for_in with (I := fun (_ : nat) (_ : unit) add => no_cells add).
  - counts.
  - intros n i [] add Hi Hadd. apply range_In in Hi.
    apply emits_for_in
      with (I := fun (_ : nat) (_ : unit) add' => no_cells (add ++ add')).
    + rewrite app_nil_r. exact Hadd.
    + intros m j [] add' Hj Hadd'. apply range_In in Hj.
      destruct (list_getitem_in_range cluster_centers i) as [p1 E1]; [lia |].
      destruct (list_getitem_in_range cluster_centers j) as [p2 E2]; [lia |].
      rewrite E1, E2. run; counts.
    + auto.
  - intros [] add Hadd. apply Hpost; [exact Hadd | discriminate].
Qed.

Lemma draw_fragments_emits (np : numpy) (ch : characteristics) (x y : Q)
    (post : unit -> list drawn -> Prop) :
  (forall add,
      count_layer ConnectionEdge add = 0%nat ->
      count_layer CellBody add = 0%nat ->
      count_layer Fragment add = 3%nat -> post tt add) ->
  emits (draw_fragments np ch x y) post.
Proof.
  intros Hpost. unfold draw_fragments.
  apply emits_for_in
    with (I := fun (n : nat) (_ : unit) add =>
                 count_layer ConnectionEdge add = 0%nat
                 /\ count_layer CellBody add = 0%nat
                 /\ count_layer Fragment add = n).
  - counts.
  - intros n i [] add _ Hadd. run. counts.
  - intros [] add (H1 & H2 & H3). apply Hpost; assumption.
Qed.

Lemma draw_sarcomeres_emits (np : numpy) (ch : characteristics)
    (x y cell_width cell_height : Q) (post : unit -> list drawn -> Prop) :
  (forall add, no_bodies add -> post tt add) ->
  emits (draw_sarcomeres np ch x y cell_width cell_height) post.
Proof.
  intros Hpost. unfold draw_sarcomeres.
  destruct (Qlt_bool 0.3 (sarcomere_organization ch)).
  2:{ apply emits_ret. apply Hpost. counts. }
  apply emits_for_in with (I := fun (_ : nat) (_ : unit) add => no_bodies add).
  - counts.
  - intros n i [] add _ Hadd.
    destruct (color_base ch) as [[r g] b].
    change (range 0 2) with [0%Z; 1%Z].
    run; counts.
  - intros [] add Hadd. now apply Hpost.
Qed.

Lemma draw_nucleus_emits (np : numpy) (ch : characteristics)
    (x y cell_width cell_height : Q) (post : unit -> list drawn -> Prop) :
  (forall add, no_bodies add -> post tt add) ->
  emits (draw_nucleus np ch x y cell_width cell_height) post.
Proof.
  intros Hpost. unfold draw_nucleus. run; apply Hpost; counts.
Qed.

Lemma draw_whole_cell_emits (np : numpy) (ch : characteristics)
    (x y cell_width cell_height : Q) (cells_drawn : Z)
    (post : Z -> list drawn -> Prop) :
  (forall add,
      count_layer ConnectionEdge add = 0%nat ->
      cell_thirds add = 3%Z -> post (cells_drawn + 1)%Z add) ->
  emits (draw_whole_cell np ch x y cell_width cell_height cells_drawn) post.
Proof.
  intros Hpost. unfold draw_whole_cell. run.
  apply draw_sarcomeres_emits. intros add1 H1. run.
  apply draw_nucleus_emits. intros add2 H2. run.
  apply Hpost; counts.
Qed.

(** Every path through one iteration of the inner loop adds one to
    [cells_drawn] and draws one cell, whole or in three fragments. *)
Lemma draw_cell_emits (np : numpy) (ch : characteristics)
    (beat_pulse cluster_x cluster_y : Q) (cells_drawn : Z)
    (post : Z -> list drawn -> Prop) :
  (forall add,
      count_layer ConnectionEdge add = 0%nat ->
      cell_thirds add = 3%Z -> post (cells_drawn + 1)%Z add) ->
  emits (draw_cell np ch beat_pulse cluster_x cluster_y cells_drawn) post.
Proof.
  intros Hpost. unfold draw_cell. run.
  all: try (apply draw_whole_cell_emits; intros add H1 H2; apply Hpost; counts).
  apply draw_fragments_emits. intros add H1 H2 H3. run. apply Hpost; counts.
Qed.

Lemma batches_step (r cd : Z) :
  (cd < r)%Z ->
  (batches (r - (cd + Z.min 5 (r - cd))) < batches (r - cd))%nat.
Proof.
  intros Hlt. unfold batches.
  apply Z2Nat.inj_lt.
  - apply Z.div_pos; lia.
  - apply Z.div_pos; lia.
  - Z.div_mod_to_equations. lia.
Qed.

(** The [while] loop of lines 211-311: with fuel for one iteration per
    batch of five cells it ends with [cells_drawn] at the reduced cell
    count (or at 0 when that count is negative), having drawn that many
    cells. *)
Lemma draw_cells_emits (np : numpy) (fuel : nat) (ch : characteristics)
    (beat_pulse : Q) (cluster_centers : list (Q * Q))
    (post : Z * Z -> list drawn -> Prop) :
  (0 < len cluster_centers)%Z ->
  (batches (reduced_cell_count ch) <= fuel)%nat ->
  (forall clusters_used add,
      count_layer ConnectionEdge add = 0%nat ->
      cell_thirds add = (3 * Z.max 0 (reduced_cell_count ch))%Z ->
      ((reduced_cell_count ch <= 0)%Z -> add = []) ->
      post (Z.max 0 (reduced_cell_count ch), clusters_used) add) ->
  emits (draw_cells np fuel ch beat_pulse cluster_centers) post.
Proof.
  intros Hlen Hfuel Hpost. unfold draw_cells.
  apply emits_while
    with (I := fun (st : Z * Z) add =>
                 (0 <= fst st <= Z.max 0 (reduced_cell_count ch))%Z
                 /\ (0 <= snd st)%Z
                 /\ count_layer ConnectionEdge add = 0%nat
                 /\ cell_thirds add = (3 * fst st)%Z
                 /\ ((reduced_cell_count ch <= 0)%Z -> add = []))
         (variant := fun st : Z * Z => batches (reduced_cell_count ch - fst st)).
  - simpl. repeat split; try reflexivity; lia.
  - simpl. now rewrite Z.sub_0_r.
  - intros [cd cu] add (Hcd & Hcu & Hconn & Hthirds & _) Hcond.
    cbn [fst snd] in Hcd, Hcu, Hthirds. apply Z.ltb_lt in Hcond.
    apply emits_bind.
    apply emits_weaken
      with (post := fun (r : Q * Q * Z) add1 => add1 = [] /\ (0 <= snd r)%Z).
    + destruct (cu <? len cluster_centers)%Z eqn:Hused.
      * apply Z.ltb_lt in Hused.
        destruct (list_getitem_in_range cluster_centers cu) as [c E]; [lia |].
        rewrite E. run. simpl. split; [reflexivity | lia].
      * apply emits_bind. apply randint_emits; [exact Hlen |].
        intros z Hz.
        destruct (list_getitem_in_range cluster_centers z) as [c E]; [lia |].
        rewrite E. run. simpl. split; [reflexivity | lia].
    + intros [[cluster_x cluster_y] cu'] add1 [-> Hcu']. simpl in Hcu'.
      apply emits_bind.
      apply emits_for_in
        with (I := fun (n : nat) (cd' : Z) add' =>
                     cd' = (cd + Z.of_nat n)%Z
                     /\ count_layer ConnectionEdge add' = 0%nat
                     /\ cell_thirds add' = (3 * Z.of_nat n)%Z).
      * repeat split; try reflexivity. simpl. lia.
      * intros n a cd' add' _ (-> & Hc' & Ht').
        apply draw_cell_emits. intros add2 Hc2 Ht2.
        rewrite cell_thirds_app, count_layer_app. repeat split; lia.
      * intros cd' add' (-> & Hc' & Ht'). rewrite range_length in *.
        run. cbn [fst snd].
        rewrite !app_nil_l, !app_nil_r, cell_thirds_app, count_layer_app.
        rewrite Z.sub_0_r in *.
        rewrite Z2Nat.id in * by lia.
        repeat split; try lia.
        apply batches_step. exact Hcond.
  - intros [cd cu] add (Hcd & Hcu & Hconn & Hthirds & Hidle) Hcond.
    cbn [fst snd] in Hcd, Hcu, Hthirds. apply Z.ltb_ge in Hcond.
    assert (Heq : cd = Z.max 0 (reduced_cell_count ch)) by lia.
    subst cd. apply Hpost; assumption.
Qed.

Lemma draw_debris_emits (np : numpy) (ch : characteristics)
    (frame_width frame_height : Z) (post : unit -> list drawn -> Prop) :
  (forall add, no_cells add -> count_layer ConnectionEdge add = 0%nat -> post tt add) ->
  emits (draw_debris np ch frame_width frame_height) post.
Proof.
  intros Hpost. unfold draw_debris.
  apply emits_for_in
    with (I := fun (_ : nat) (_ : unit) add =>
                 no_cells add /\ count_layer ConnectionEdge add = 0%nat).
  - counts.
  - intros n i [] add _ Hadd. run; counts.
  - intros [] add [H1 H2]. now apply Hpost.
Qed.

(** ** The whole frame *)

Lemma batches_reduced (ch : characteristics) :
  (batches (reduced_cell_count ch) <= 3)%nat.
Proof.
  pose proof (reduced_cell_count_le ch) as H. unfold batches.
  assert (Hq : ((reduced_cell_count ch + 4) / 5 <= 3)%Z)
    by (Z.div_mod_to_equations; lia).
  lia.
Qed.

Lemma batches_idle (n : Z) : (n <= 0)%Z -> batches n = 0%nat.
Proof.
  intros Hn. unfold batches.
  assert (Hq : ((n + 4) / 5 <= 0)%Z) by (Z.div_mod_to_equations; lia).
  lia.
Qed.

(** With fuel for every batch, [generate_frame] returns an image of the
    requested size whose calls show the reduced number of cells. *)
Lemma generate_frame_runs (np : numpy) (fuel : nat) (ch : characteristics)
    (time_point : Q) (frame_width frame_height : Z) (s : state) :
  (batches (reduced_cell_count ch) <= fuel)%nat ->
  exists img s',
    generate_frame np fuel ch time_point frame_width frame_height s = Done (img, s')
    /\ size img = (frame_width, frame_height)
    /\ background img = (255, 255, 255)%Z
    /\ cell_thirds (calls img) = (3 * Z.max 0 (reduced_cell_count ch))%Z
    /\ (Qlt_bool 0.4 (connection ch) = false ->
        count_layer ConnectionEdge (calls img) = 0%nat)
    /\ ((reduced_cell_count ch <= 0)%Z -> no_cells (calls img)).
Proof.
  intros Hfuel. unfold generate_frame.
  set (beat_pulse :=
         np_sin np (mod1 (time_point * (1.0 + beating_strength ch)) * np_pi np)).
  unfold bind at 1. unfold new_image at 1.
  set (s0 := {| cursor := cursor s; canvas := [] |}).
  assert (Hrest :
    emits
      (cluster_centers <- make_cluster_centers np ch frame_width frame_height ;;
       draw_connections np ch cluster_centers ;;
       draw_cells np fuel ch beat_pulse cluster_centers ;;
       draw_debris np ch frame_width frame_height ;;
       draw Overlay (Rectangle (10, 10, 160, 30) (240, 240, 240, 180)%Z))
      (fun _ add =>
         cell_thirds add = (3 * Z.max 0 (reduced_cell_count ch))%Z
         /\ (Qlt_bool 0.4 (connection ch) = false ->
             count_layer ConnectionEdge add = 0%nat)
         /\ ((reduced_cell_count ch <= 0)%Z -> no_cells add))).
  { apply emits_bind. apply make_cluster_centers_emits. intros centers Hlen.
    apply emits_bind. apply draw_connections_emits. intros add1 Hc1 Hoff.
    apply emits_bind. apply draw_cells_emits; [| exact Hfuel |].
    { pose proof (num_clusters_range ch). lia. }
    intros cu add2 Hconn2 Hthirds2 Hidle.
    apply emits_bind. apply draw_debris_emits. intros add3 Hc3 Hconn3.
    apply emits_draw.
    split; [| split].
    - counts.
    - intros Hq. rewrite (Hoff Hq). counts.
    - intros Hr. rewrite (Hidle Hr). counts. }
  destruct (Hrest s0) as ([] & s1 & add & E & C & Hthirds & Hconn & Hnone).
  exists {| size := (frame_width, frame_height);
            background := (255, 255, 255)%Z;
            calls := canvas s1 |}, s1.
  split.
  - unfold bind in E |- *.
    repeat match type of E with
           | context [match ?x with Done _ => _ | Raise _ => _ | OutOfFuel => _ end] =>
               destruct x as [[? ?] | |] eqn:?; try discriminate
           end.
    rewrite E. reflexivity.
  - cbn [size background calls]. rewrite C. subst s0. cbn [canvas app].
    split; [reflexivity |]. split; [reflexivity |].
    split; [exact Hthirds |]. split; [exact Hconn | exact Hnone].
Qed.

(** C5 (as stated, refuted). For the anchor of day 2 ([cell_count] 12)
    the source computes [min(int(9.6), 15) = 9], not
    [min(round(9.6), 15) = 10]. *)
Lemma reduced_cell_count_not_rounded :
  cell_characteristics 2 = Some day2
  /\ reduced_cell_count day2 = 9%Z
  /\ Z.min (py_round (cell_count day2 * 0.8)) 15 = 10%Z
  /\ reduced_cell_count day2 <> Z.min (py_round (cell_count day2 * 0.8)) 15.
Proof. repeat split; try reflexivity. discriminate. Qed.

(** C5 (amended). For every record the reduced cell count computed by
    [generate_frame] is [min(int(cell_count * 0.8), 15)], [int]
    truncating toward zero, and the frame returned shows exactly that
    many cells (none when the count is negative), a cell being either
    one whole body or three fragments. *)
Theorem reduced_cell_count_truncated (np : numpy) (extra : nat)
    (ch : characteristics) (time_point : Q) (frame_width frame_height : Z)
    (s : state) :
  reduced_cell_count ch = Z.min (py_int (cell_count ch * 0.8)) 15
  /\ exists img s',
       generate_frame np (3 + extra) ch time_point frame_width frame_height s
       = Done (img, s')
       /\ cell_thirds (calls img)
          = (3 * Z.max 0 (Z.min (py_int (cell_count ch * 0.8)) 15))%Z.
Proof.
  split; [reflexivity |].
  destruct (generate_frame_runs np (3 + extra) ch time_point
              frame_width frame_height s)
    as (img & s' & E & _ & _ & Hthirds & _).
  { pose proof (batches_reduced ch). lia. }
  exists img, s'. split; [exact E | exact Hthirds].
Qed.

(** C7. For every record and every sequence of random draws the list of
    cluster centers built by [generate_frame] has two or three
    elements. *)
Theorem cluster_count_two_or_three (np : numpy) (ch : characteristics)
    (frame_width frame_height : Z) (s : state) :
  exists centers s',
    make_cluster_centers np ch frame_width frame_height s = Done (centers, s')
    /\ len centers = num_clusters ch
    /\ (List.length centers = 2%nat \/ List.length centers = 3%nat).
Proof.
  destruct (make_cluster_centers_emits np ch frame_width frame_height
              (fun centers _ => len centers = num_clusters ch)
              (fun _ H => H) s)
    as (centers & s' & _ & E & _ & Hlen).
  exists centers, s'. split; [exact E |]. split; [exact Hlen |].
  pose proof (num_clusters_range ch). unfold len in Hlen. lia.
Qed.

(** C8. For every record whose connection is at most 0.4 and every
    sequence of random draws, the connection step of [generate_frame]
    draws nothing and consumes no random number, and the frame returned
    has no connection edge. *)
Theorem no_connections_below_threshold (np : numpy) (extra : nat)
    (ch : characteristics) (time_point : Q) (frame_width frame_height : Z)
    (cluster_centers : list (Q * Q)) (s : state) :
  connection ch <= 0.4 ->
  draw_connections np ch cluster_centers s = Done (tt, s)
  /\ exists img s',
       generate_frame np (3 + extra) ch time_point frame_width frame_height s
       = Done (img, s')
       /\ count_layer ConnectionEdge (calls img) = 0%nat.
Proof.
  intros Hconn. apply Qlt_bool_false in Hconn. split.
  - unfold draw_connections. rewrite Hconn. reflexivity.
  - destruct (generate_frame_runs np (3 + extra) ch time_point
                frame_width frame_height s)
      as (img & s' & E & _ & _ & _ & Hnone & _).
    { pose proof (batches_reduced ch). lia. }
    exists img, s'. split; [exact E | exact (Hnone Hconn)].
Qed.

Lemma no_connections_below_threshold_witness :
  connection day1 <= 0.4
  /\ (draw_connections sample_numpy day1 [(150, 150); (250, 150)] initial_state
      = Done (tt, initial_state)
      /\ exists img s',
           generate_frame sample_numpy (3 + 0) day1 0 400 300 initial_state
           = Done (img, s')
           /\ count_layer ConnectionEdge (calls img) = 0%nat).
Proof.
  split; [unfold Qle; simpl; lia |].
  apply (no_connections_below_threshold sample_numpy 0 day1 0 400 300).
  unfold Qle; simpl; lia.
Defined.

(** C9. When the reduced cell count is 0 the [while] loop of
    [generate_frame] ends at once, whatever the fuel, without drawing
    and without error, and [generate_frame] returns an image of the
    requested size that shows no cell body, fragment, sarcomere line or
    nucleus. *)
Theorem no_cells_frame (np : numpy) (fuel : nat) (ch : characteristics)
    (time_point beat_pulse : Q) (frame_width frame_height : Z)
    (cluster_centers : list (Q * Q)) (s : state) :
  reduced_cell_count ch = 0%Z ->
  draw_cells np fuel ch beat_pulse cluster_centers s = Done ((0%Z, 0%Z), s)
  /\ exists img s',
       generate_frame np fuel ch time_point frame_width frame_height s
       = Done (img, s')
       /\ size img = (frame_width, frame_height)
       /\ background img = (255, 255, 255)%Z
       /\ no_cells (calls img).
Proof.
  intros Hzero. split.
  - unfold draw_cells. destruct fuel; simpl; rewrite Hzero; reflexivity.
  - destruct (generate_frame_runs np fuel ch time_point
                frame_width frame_height s)
      as (img & s' & E & Hsize & Hbg & _ & _ & Hnone).
    { rewrite batches_idle; lia. }
    exists img, s'. repeat split; try assumption; apply Hnone; lia.
Qed.

Lemma no_cells_frame_witness :
  reduced_cell_count (with_cell_count day1 0) = 0%Z
  /\ (draw_cells sample_numpy 0 (with_cell_count day1 0) 0
        [(150, 150); (250, 150)] initial_state
      = Done ((0%Z, 0%Z), initial_state)
      /\ exists img s',
           generate_frame sample_numpy 0 (with_cell_count day1 0) 0 400 300
             initial_state
           = Done (img, s')
           /\ size img = (400, 300)%Z
           /\ background img = (255, 255, 255)%Z
           /\ no_cells (calls img)).
Proof.
  split; [reflexivity |].
  apply (no_cells_frame sample_numpy 0 (with_cell_count day1 0) 0 0 400 300).
  reflexivity.
Defined.

Lemma reduced_cell_count_nonneg (ch : characteristics) :
  0 <= cell_count ch -> (0 <= reduced_cell_count ch)%Z.
Proof.
  intros Hc. unfold reduced_cell_count.
  assert (Hx : 0 <= cell_count ch * 0.8) by nra.
  rewrite py_int_nonneg by exact Hx.
  assert (H0 : (0 <= Qfloor (cell_count ch * 0.8))%Z).
  { rewrite <- (Qfloor_Z 0). apply Qfloor_resp_le. exact Hx. }
  lia.
Qed.

(** C10. For every record with a non-negative cell count and every
    sequence of random draws: each iteration of the inner loop returns
    with [cells_drawn] increased by one, on every path; the [while] loop
    ends after one iteration per batch of five cells, at most three, with
    [cells_drawn] equal to the reduced cell count; and [generate_frame]
    returns. *)
Theorem cell_loop_terminates (np : numpy) (extra : nat) (ch : characteristics)
    (time_point beat_pulse : Q) (frame_width frame_height : Z)
    (cluster_centers : list (Q * Q)) (s : state) :
  0 <= cell_count ch ->
  cluster_centers <> [] ->
  (forall cluster_x cluster_y cells_drawn s0,
      exists s1,
        draw_cell np ch beat_pulse cluster_x cluster_y cells_drawn s0
        = Done ((cells_drawn + 1)%Z, s1))
  /\ (batches (reduced_cell_count ch) <= 3)%nat
  /\ (exists clusters_used s',
        draw_cells np (batches (reduced_cell_count ch) + extra) ch beat_pulse
          cluster_centers s
        = Done ((reduced_cell_count ch, clusters_used), s'))
  /\ (exists img s',
        generate_frame np (3 + extra) ch time_point frame_width frame_height s
        = Done (img, s')).
Proof.
  intros Hcount Hcenters.
  pose proof (reduced_cell_count_nonneg ch Hcount) as Hred.
  split; [| split; [| split]].
  - intros cx cy cd s0.
    destruct (draw_cell_emits np ch beat_pulse cx cy cd
                (fun cd' _ => cd' = (cd + 1)%Z) (fun _ _ _ => eq_refl) s0)
      as (cd' & s1 & _ & E & _ & ->).
    exists s1. exact E.
  - apply batches_reduced.
  - destruct (draw_cells_emits np (batches (reduced_cell_count ch) + extra) ch
                beat_pulse cluster_centers
                (fun st _ => fst st = Z.max 0 (reduced_cell_count ch))) with (s := s)
      as ([cd cu] & s' & _ & E & _ & Hcd).
    + unfold len. destruct cluster_centers; [congruence | simpl; lia].
    + lia.
    + intros; reflexivity.
    + cbn [fst] in Hcd. rewrite Z.max_r in Hcd by exact Hred. subst cd.
      exists cu, s'. exact E.
  - destruct (generate_frame_runs np (3 + extra) ch time_point
                frame_width frame_height s)
      as (img & s' & E & _).
    { pose proof (batches_reduced ch). lia. }
    exists img, s'. exact E.
Qed.

Lemma cell_loop_terminates_witness :
  0 <= cell_count day6
  /\ [(150, 150); (250, 150)] <> []
  /\ ((forall cluster_x cluster_y cells_drawn s0,
          exists s1,
            draw_cell sample_numpy day6 0 cluster_x cluster_y cells_drawn s0
            = Done ((cells_drawn + 1)%Z, s1))
      /\ (batches (reduced_cell_count day6) <= 3)%nat
      /\ (exists clusters_used s',
            draw_cells sample_numpy (batches (reduced_cell_count day6) + 0) day6 0
              [(150, 150); (250, 150)] initial_state
            = Done ((reduced_cell_count day6, clusters_used), s'))
      /\ (exists img s',
            generate_frame sample_numpy (3 + 0) day6 0 400 300 initial_state
            = Done (img, s'))).
Proof.
  split; [unfold Qle; simpl; lia |]. split; [discriminate |].
  apply (cell_loop_terminates sample_numpy 0 day6 0 0 400 300).
  - unfold Qle; simpl; lia.
  - discriminate.
Defined.

(** ** The assembler *)

Lemma total_keyframes_ge (min_day max_day : Q) :
  (4 <= total_keyframes min_day max_day)%Z.
Proof.
  unfold total_keyframes.
  destruct (Qle_bool (max_day - min_day) 2) eqn:E; [lia |].
  assert (Hgt : 2 < max_day - min_day).
  { apply Qnot_le_lt. intros Hle. apply Qle_bool_iff in Hle. congruence. }
  assert (Hx : 4 <= 16 * (max_day - min_day) / 7).
  { unfold Qdiv. change (/ 7) with (1 # 7). lra. }
  rewrite py_int_nonneg by lra.
  rewrite <- (Qfloor_Z 4). apply Qfloor_resp_le. exact Hx.
Qed.

Lemma linspace_runs (start stop : Q) (num : Z) :
  (0 <= num)%Z ->
  exists positions,
    linspace start stop num = Done positions
    /\ len positions = num
    /\ forall d, In d positions -> between start stop d.
Proof.
  intros Hnum. unfold linspace.
  assert (H0 : (num <? 0)%Z = false) by (apply Z.ltb_ge; lia).
  rewrite H0. eexists. split; [reflexivity |]. split.
  - unfold len. rewrite length_map, range_length. lia.
  - intros d Hd. apply in_map_iff in Hd. destruct Hd as (i & <- & Hi).
    apply range_In in Hi.
    destruct ((1 <? num)%Z && (i =? num - 1)%Z)%bool.
    { unfold between.
      destruct (Qlt_le_dec start stop); [left | right]; split; lra. }
    destruct (0 <? num - 1)%Z eqn:Hdiv.
    + apply Z.ltb_lt in Hdiv.
      assert (HD : 0 < inject_Z (num - 1))
        by (change 0 with (inject_Z 0); rewrite <- Zlt_Qlt; lia).
      assert (HI0 : 0 <= inject_Z i)
        by (change 0 with (inject_Z 0); rewrite <- Zle_Qle; lia).
      assert (HI1 : inject_Z i <= inject_Z (num - 1))
        by (rewrite <- Zle_Qle; lia).
      assert (Hstep : inject_Z (num - 1) * ((stop - start) / inject_Z (num - 1))
                      == stop - start).
      { apply Qmult_div_r. lra. }
      set (D := inject_Z (num - 1)) in *. set (I := inject_Z i) in *.
      set (S := (stop - start) / D) in *.
      unfold between.
      destruct (Qlt_le_dec start stop) as [Hlt | Hge]; [left | right].
      * assert (HS : 0 <= S)
          by (destruct (Qlt_le_dec S 0); [exfalso; nra | assumption]).
        split; nra.
      * assert (HS : S <= 0)
          by (destruct (Qlt_le_dec 0 S); [exfalso; nra | assumption]).
        split; nra.
    + apply Z.ltb_ge in Hdiv. assert (i = 0%Z) by lia. subst i.
      unfold between. change (inject_Z 0) with 0.
      destruct (Qlt_le_dec start stop); [left | right]; split; lra.
Qed.

(** The loop of lines 442-447 returns one frame per day position. *)
Lemma sample_frames_run (np : numpy) (fuel : nat) (day_positions : list Q) :
  (3 <= fuel)%nat ->
  (forall d, In d day_positions -> 1 <= d /\ d <= 8) ->
  forall (sample_frames : list image) (s : state),
  exists frames' s',
    for_in day_positions
      (fun day_decimal sample_frames =>
         characteristics <- lift (interpolate_characteristics day_decimal) ;;
         let time_point := (day_decimal - 1) * (60 / 7) in
         frame <- generate_frame np fuel characteristics time_point 400 300 ;;
         ret (sample_frames ++ [frame]))
      sample_frames s
    = Done (frames', s')
    /\ List.length frames'
       = (List.length sample_frames + List.length day_positions)%nat.
Proof.
  intros Hfuel. induction day_positions as [| d ds IH]; intros Hin acc s.
  - exists acc, s. simpl. split; [reflexivity | lia].
  - destruct (interpolate_returns d) as [r Er]; try (apply Hin; now left).
    destruct (generate_frame_runs np fuel r ((d - 1) * (60 / 7)) 400 300 s)
      as (img & s1 & Eg & _).
    { pose proof (batches_reduced r). lia. }
    destruct (IH (fun d' H => Hin d' (or_intror H)) (acc ++ [img]) s1)
      as (frames' & s' & E & Hlen).
    exists frames', s'. split.
    + cbn [for_in]. unfold bind at 1. unfold bind at 1.
      rewrite Er. cbn [lift]. unfold bind at 1. rewrite Eg.
      cbn [ret]. exact E.
    + rewrite Hlen, length_app. simpl. lia.
Qed.

Lemma assemble_runs (np : numpy) (fuel : nat) (min_day max_day : Q)
    (animation_speed : string) (ms : Z) (s : state) :
  (3 <= fuel)%nat ->
  1 <= min_day /\ min_day <= 8 ->
  1 <= max_day /\ max_day <= 8 ->
  duration_map animation_speed = Some ms ->
  exists anim s',
    assemble np fuel min_day max_day animation_speed s = Done (anim, s')
    /\ len (frames anim) = total_keyframes min_day max_day
    /\ duration anim = ms
    /\ loop anim = 0%Z.
Proof.
  intros Hfuel Hmin Hmax Hspeed. unfold assemble.
  pose proof (total_keyframes_ge min_day max_day) as Hge.
  destruct (linspace_runs min_day max_day (total_keyframes min_day max_day))
    as (positions & El & Hlen & Hbetween); [lia |].
  rewrite El. unfold bind at 1. cbn [lift].
  destruct (sample_frames_run np fuel positions Hfuel) with (sample_frames := @nil image) (s := s)
    as (frames' & s' & Ef & Hframes).
  { intros d Hd. destruct (Hbetween d Hd) as [[H1 H2] | [H1 H2]]; split; lra. }
  unfold bind at 1. cbv beta iota zeta. cbv zeta in Ef. rewrite Ef.
  unfold getitem_str. rewrite Hspeed. unfold bind at 1. cbn [lift].
  simpl in Hframes. unfold len in Hlen.
  destruct frames' as [| f0 rest]; [simpl in Hframes; lia |].
  eexists _, s'. split; [reflexivity |]. cbn [frames duration loop].
  unfold len. rewrite Hframes. repeat split. exact Hlen.
Qed.

(** C6 (as stated, refuted). For the day range (3, 6) of the "Middle"
    selection the source computes [int(16 * 3 / 7) = 6] keyframes, not
    [round(16 * 3 / 7) = 7]. *)
Lemma keyframes_not_rounded :
  day_range_map "Middle (3-6)" = Some (3.0, 6.0)
  /\ Qle_bool (6.0 - 3.0) 2 = false
  /\ total_keyframes 3.0 6.0 = 6%Z
  /\ py_round (16 * (6.0 - 3.0) / 7) = 7%Z
  /\ total_keyframes 3.0 6.0 <> py_round (16 * (6.0 - 3.0) / 7).
Proof. repeat split; try reflexivity. discriminate. Qed.

(** C6 (amended). For every day range [(min, max)]: the keyframe count
    is 12 when [max - min <= 2] and [int(16 * (max - min) / 7)]
    otherwise, [int] truncating toward zero, and [np.linspace] returns
    exactly that many day positions; the range (1, 8) gives 16 and the
    range (1, 3) gives 12; and when both ends lie in [1, 8] and the speed
    is a key of [duration_map], the assembler returns an animation with
    exactly that many frames, shown at the duration of that speed. *)
Theorem keyframe_count (min_day max_day : Q) :
  total_keyframes min_day max_day
  = (if Qle_bool (max_day - min_day) 2 then 12%Z
     else py_int (16 * (max_day - min_day) / 7))
  /\ (exists day_positions,
        linspace min_day max_day (total_keyframes min_day max_day)
        = Done day_positions
        /\ len day_positions = total_keyframes min_day max_day)
  /\ total_keyframes 1.0 8.0 = 16%Z
  /\ total_keyframes 1.0 3.0 = 12%Z
  /\ (forall (np : numpy) (extra : nat) (animation_speed : string) (ms : Z)
             (s : state),
        1 <= min_day /\ min_day <= 8 ->
        1 <= max_day /\ max_day <= 8 ->
        duration_map animation_speed = Some ms ->
        exists anim s',
          assemble np (3 + extra) min_day max_day animation_speed s
          = Done (anim, s')
          /\ len (frames anim) = total_keyframes min_day max_day
          /\ duration anim = ms
          /\ loop anim = 0%Z).
Proof.
  split; [reflexivity |]. split.
  - pose proof (total_keyframes_ge min_day max_day) as Hge.
    destruct (linspace_runs min_day max_day (total_keyframes min_day max_day))
      as (positions & El & Hlen & _); [lia |].
    exists positions. split; assumption.
  - split; [reflexivity |]. split; [reflexivity |].
    intros np extra speed ms s Hmin Hmax Hspeed.
    apply assemble_runs; [lia | assumption | assumption | assumption].
Qed.

Lemma keyframe_count_witness :
  (1 <= 1.0 /\ 1.0 <= 8)
  /\ (1 <= 8.0 /\ 8.0 <= 8)
  /\ duration_map "Medium" = Some 250%Z
  /\ exists anim s',
       assemble sample_numpy (3 + 0) 1.0 8.0 "Medium" initial_state
       = Done (anim, s')
       /\ len (frames anim) = total_keyframes 1.0 8.0
       /\ duration anim = 250%Z
       /\ loop anim = 0%Z.
Proof.
  assert (H1 : 1 <= 1.0 /\ 1.0 <= 8) by (split; unfold Qle; simpl; lia).
  assert (H8 : 1 <= 8.0 /\ 8.0 <= 8) by (split; unfold Qle; simpl; lia).
  split; [exact H1 |]. split; [exact H8 |]. split; [reflexivity |].
  exact (proj2 (proj2 (proj2 (proj2 (keyframe_count 1.0 8.0))))
           sample_numpy 0%nat "Medium"%string 250%Z initial_state
           H1 H8 eq_refl).
Defined.

(** * Further properties *)

(** ** The domain of the interpolator *)

Lemma py_int_below_one (x : Q) : x < 1 -> (py_int x <= 0)%Z.
Proof.
  intros Hx. destruct (Qlt_le_dec x 0) as [Hneg | Hpos].
  - rewrite py_int_nonpos by lra. unfold Qceiling.
    assert (H : (Qfloor 0 <= Qfloor (- x))%Z) by (apply Qfloor_resp_le; lra).
    change (Qfloor 0) with 0%Z in H. lia.
  - rewrite py_int_nonneg by assumption.
    assert (H : (Qfloor x < 1)%Z).
    { rewrite Zlt_Qlt. pose proof (Qfloor_le x). change (inject_Z 1) with 1. lra. }
    lia.
Qed.

Lemma py_int_ge (n : Z) (x : Q) :
  0 <= x -> inject_Z n <= x -> (n <= py_int x)%Z.
Proof.
  intros H0 Hn. rewrite py_int_nonneg by assumption.
  rewrite <- (Qfloor_Z n). now apply Qfloor_resp_le.
Qed.

Lemma py_int_lt (n : Z) (x : Q) :
  0 <= x -> x < inject_Z n -> (py_int x < n)%Z.
Proof.
  intros H0 Hn. rewrite py_int_nonneg by assumption.
  rewrite Zlt_Qlt. pose proof (Qfloor_le x). lra.
Qed.

Lemma cell_characteristics_undefined (k : Z) :
  (k <= 0 \/ 9 <= k)%Z -> cell_characteristics k = None.
Proof.
  intros Hk. destruct k as [| p | p]; try reflexivity.
  do 4 (destruct p as [p | p |]; try reflexivity; try lia).
Qed.

Lemma cell_characteristics_keys (k : Z) (a : characteristics) :
  cell_characteristics k = Some a -> (1 <= k <= 8)%Z.
Proof.
  intros Hk. destruct (Z_le_gt_dec k 0) as [H0 | H0].
  - rewrite cell_characteristics_undefined in Hk by lia. discriminate.
  - destruct (Z_le_gt_dec 9 k) as [H9 | H9]; [| lia].
    rewrite cell_characteristics_undefined in Hk by lia. discriminate.
Qed.

Lemma interpolate_out_of_table (day : Q) :
  (py_int day <= 0 \/ 9 <= py_int day)%Z ->
  interpolate_characteristics day = Raise (KeyError (py_int day)).
Proof.
  intros Hk. unfold interpolate_characteristics.
  assert (Hne : (py_int day =? 8)%Z = false) by (apply Z.eqb_neq; lia).
  rewrite Hne. unfold getitem.
  rewrite (cell_characteristics_undefined _ Hk). reflexivity.
Qed.

(** X1. The interpolator returns a record exactly on [1, 9): below day 1
    and from day 9 on it raises [KeyError] with the truncated day as
    key. *)
Theorem interpolate_domain (day : Q) :
  (1 <= day /\ day < 9 -> exists r, interpolate_characteristics day = Done r)
  /\ (day < 1 \/ 9 <= day ->
      interpolate_characteristics day = Raise (KeyError (py_int day))).
Proof.
  split.
  - intros [H1 H9]. destruct (Qlt_le_dec 8 day) as [H8 | H8].
    + exists day8. now apply interpolate_capped.
    + now apply interpolate_returns.
  - intros [H1 | H9]; apply interpolate_out_of_table.
    + left. now apply py_int_below_one.
    + right. apply py_int_ge; [lra | exact H9].
Qed.

Lemma interpolate_domain_witness :
  (1 <= 8.75 /\ 8.75 < 9)
  /\ (0.5 < 1 \/ 9 <= 0.5)
  /\ (exists r, interpolate_characteristics 8.75 = Done r)
  /\ interpolate_characteristics 0.5 = Raise (KeyError (py_int 0.5)).
Proof.
  assert (Ha : 1 <= 8.75 /\ 8.75 < 9)
    by (split; [unfold Qle | unfold Qlt]; simpl; lia).
  assert (Hb : 0.5 < 1 \/ 9 <= 0.5) by (left; unfold Qlt; simpl; lia).
  split; [exact Ha |]. split; [exact Hb |]. split.
  - exact (proj1 (interpolate_domain 8.75) Ha).
  - exact (proj2 (interpolate_domain 0.5) Hb).
Defined.

(** X2. At every integer day of the table the interpolator returns a
    record equal field for field to the anchor of that day: the
    interpolation passes through the anchors. *)
Theorem interpolate_at_anchor (k : Z) (anchor : characteristics) :
  cell_characteristics k = Some anchor ->
  exists r,
    interpolate_characteristics (inject_Z k) = Done r
    /\ characteristics_eq r anchor.
Proof.
  intros Hk. pose proof (cell_characteristics_keys k anchor Hk) as Hr.
  assert (H : k = 1%Z \/ k = 2%Z \/ k = 3%Z \/ k = 4%Z \/ k = 5%Z \/ k = 6%Z
              \/ k = 7%Z \/ k = 8%Z) by lia.
  repeat (destruct H as [-> | H]); try subst k;
    simpl in Hk; injection Hk as <-;
    (eexists; split; [reflexivity |]);
    unfold characteristics_eq; simpl; repeat split; reflexivity.
Qed.

Lemma interpolate_at_anchor_witness :
  cell_characteristics 5 = Some day5
  /\ exists r,
       interpolate_characteristics (inject_Z 5) = Done r
       /\ characteristics_eq r day5.
Proof.
  split; [reflexivity |]. apply (interpolate_at_anchor 5 day5). reflexivity.
Defined.

(** ** The ranges of the interpolated fields *)

Lemma anchors_in_table_ranges (k : Z) (anchor : characteristics) :
  cell_characteristics k = Some anchor -> in_table_ranges anchor.
Proof.
  intros Hk. pose proof (cell_characteristics_keys k anchor Hk) as Hr.
  assert (H : k = 1%Z \/ k = 2%Z \/ k = 3%Z \/ k = 4%Z \/ k = 5%Z \/ k = 6%Z
              \/ k = 7%Z \/ k = 8%Z) by lia.
  repeat (destruct H as [-> | H]); try subst k;
    simpl in Hk; injection Hk as <-;
    unfold in_table_ranges; simpl;
    repeat split; try lia; unfold Qle; simpl; lia.
Qed.

Lemma between_range (lo hi a b x : Q) :
  lo <= a /\ a <= hi -> lo <= b /\ b <= hi -> between a b x ->
  lo <= x /\ x <= hi.
Proof. unfold between. intros [? ?] [? ?] [[? ?] | [? ?]]; split; lra. Qed.

Lemma betweenZ_range (lo hi a b x : Z) :
  (lo <= a <= hi)%Z -> (lo <= b <= hi)%Z -> betweenZ a b x -> (lo <= x <= hi)%Z.
Proof. unfold betweenZ. lia. Qed.

(** The table ranges are kept by every record between two records that
    keep them. *)
Lemma within_anchors_in_table_ranges (lower upper r : characteristics) :
  in_table_ranges lower -> in_table_ranges upper ->
  within_anchors lower upper r -> in_table_ranges r.
Proof.
  unfold in_table_ranges, within_anchors.
  intros (L1 & L2 & L3 & L4 & L5 & L6 & L7 & L8 & L9 & L10 & L11)
         (U1 & U2 & U3 & U4 & U5 & U6 & U7 & U8 & U9 & U10 & U11)
         (W1 & W2 & W3 & W4 & W5 & W6 & W7 & W8 & W9 & W10 & W11).
  destruct (color_base lower) as [[lr lg] lb].
  destruct (color_base upper) as [[ur ug] ub].
  destruct (color_base r) as [[cr cg] cb].
  simpl in W7. destruct W7 as (Wr & Wg & Wb).
  destruct L7 as (Lr & Lg & Lb). destruct U7 as (Ur & Ug & Ub).
  split; [exact (between_range _ _ _ _ _ L1 U1 W1) |].
  split; [exact (between_range _ _ _ _ _ L2 U2 W2) |].
  split; [exact (between_range _ _ _ _ _ L3 U3 W3) |].
  split; [exact (between_range _ _ _ _ _ L4 U4 W4) |].
  split; [exact (between_range _ _ _ _ _ L5 U5 W5) |].
  split; [exact (between_range _ _ _ _ _ L6 U6 W6) |].
  split.
  { split; [| split].
    - exact (betweenZ_range _ _ _ _ _ Lr Ur Wr).
    - exact (betweenZ_range _ _ _ _ _ Lg Ug Wg).
    - exact (betweenZ_range _ _ _ _ _ Lb Ub Wb). }
  split; [exact (between_range _ _ _ _ _ L8 U8 W8) |].
  split; [exact (between_range _ _ _ _ _ L9 U9 W9) |].
  split; [exact (between_range _ _ _ _ _ L10 U10 W10) |].
  exact (between_range _ _ _ _ _ L11 U11 W11).
Qed.

Lemma interpolate_in_table_ranges (day : Q) :
  1 <= day -> day <= 8 ->
  exists r, interpolate_characteristics day = Done r /\ in_table_ranges r.
Proof.
  intros H1 H8.
  pose proof (day_lower_range day H1 H8) as Hk.
  destruct (Z.eq_dec (py_int day) 8) as [Heq | Hne].
  - exists day8. split.
    + unfold interpolate_characteristics. rewrite Heq. reflexivity.
    + apply (anchors_in_table_ranges 8). reflexivity.
  - destruct (cell_characteristics_defined (py_int day) Hk) as [lower Hlo].
    destruct (cell_characteristics_defined (Z.min 8 (py_int day + 1)))
      as [upper Hup]; [lia |].
    destruct (interpolate_unfold day lower upper Hne Hlo Hup)
      as (r & Hr & _ & _ & Hw).
    exists r. split; [exact Hr |].
    apply (within_anchors_in_table_ranges lower upper).
    + exact (anchors_in_table_ranges _ _ Hlo).
    + exact (anchors_in_table_ranges _ _ Hup).
    + apply Hw. lra.
Qed.

(** X3. For every day of [1, 8] the interpolated record stays in the
    ranges of the anchor table: every color channel is a valid byte
    (between 51 and 255), every ratio lies in [0.1, 1], the elongation
    in [1, 2.2], the nucleus size in [0.25, 0.7] and the cell count in
    [8, 28]. *)
Theorem interpolated_record_in_ranges (day : Q) :
  1 <= day -> day <= 8 ->
  exists r,
    interpolate_characteristics day = Done r
    /\ in_table_ranges r
    /\ (let '(cr, cg, cb) := color_base r in
        (0 <= cr <= 255)%Z /\ (0 <= cg <= 255)%Z /\ (0 <= cb <= 255)%Z).
Proof.
  intros H1 H8.
  destruct (interpolate_in_table_ranges day H1 H8) as (r & Hr & Hin).
  exists r. split; [exact Hr |]. split; [exact Hin |].
  destruct Hin as (_ & _ & _ & _ & _ & _ & Hc & _).
  destruct (color_base r) as [[cr cg] cb]. lia.
Qed.

Lemma interpolated_record_in_ranges_witness :
  1 <= 6.25
  /\ 6.25 <= 8
  /\ exists r,
       interpolate_characteristics 6.25 = Done r
       /\ in_table_ranges r
       /\ (let '(cr, cg, cb) := color_base r in
           (0 <= cr <= 255)%Z /\ (0 <= cg <= 255)%Z /\ (0 <= cb <= 255)%Z).
Proof.
  split; [unfold Qle; simpl; lia |]. split; [unfold Qle; simpl; lia |].
  apply (interpolated_record_in_ranges 6.25); unfold Qle; simpl; lia.
Defined.

Lemma table_ranges_counts (r : characteristics) :
  in_table_ranges r ->
  num_clusters r = 2%Z /\ (6 <= reduced_cell_count r <= 15)%Z.
Proof.
  intros (_ & _ & _ & _ & _ & _ & _ & _ & _ & [Hc1 Hc2] & [Hk1 Hk2]).
  unfold num_clusters, reduced_cell_count. split.
  - assert (H : (py_int (cell_clustering r * 3) < 3)%Z).
    { apply py_int_lt; [lra |]. change (inject_Z 3) with 3. lra. }
    assert (H0 : (0 <= py_int (cell_clustering r * 3))%Z).
    { apply py_int_ge; [lra |]. change (inject_Z 0) with 0. lra. }
    lia.
  - assert (H : (6 <= py_int (cell_count r * 0.8))%Z).
    { apply py_int_ge; [lra |]. change (inject_Z 6) with 6. lra. }
    lia.
Qed.

(** ** The layers of a frame *)

Lemma on_layer_iff (l : layer) (d : drawn) : on_layer l d = true <-> fst d = l.
Proof.
  destruct d as [l' c]. unfold on_layer. cbn [fst].
  destruct l', l; split; intros H; try reflexivity; discriminate H.
Qed.

Lemma count_layer_same (l : layer) (cs : list drawn) :
  Forall (fun d => fst d = l) cs -> count_layer l cs = List.length cs.
Proof.
  induction 1 as [| d cs Hd _ IH]; [reflexivity |].
  rewrite count_layer_cons, IH.
  apply on_layer_iff in Hd. rewrite Hd. reflexivity.
Qed.

Lemma count_layer_other (l l0 : layer) (cs : list drawn) :
  Forall (fun d => fst d = l0) cs -> l <> l0 -> count_layer l cs = 0%nat.
Proof.
  intros Hall Hne. induction Hall as [| d cs Hd _ IH]; [reflexivity |].
  rewrite count_layer_cons, IH.
  destruct (on_layer l d) eqn:E; [| reflexivity].
  apply on_layer_iff in E. congruence.
Qed.

Lemma count_layer_zero_not_in (l : layer) (cs : list drawn) (d : drawn) :
  count_layer l cs = 0%nat -> In d cs -> fst d <> l.
Proof.
  induction cs as [| c cs IH]; [contradiction |].
  rewrite count_layer_cons. intros Hc [-> | Hin].
  - intros Hl. apply on_layer_iff in Hl. rewrite Hl in Hc. discriminate.
  - apply IH; [lia | exact Hin].
Qed.

(** Calls with no connection edge, no debris and no overlay among them
    were all made while drawing the cells. *)
Lemma on_cell_layer_of_counts (cs : list drawn) :
  count_layer ConnectionEdge cs = 0%nat ->
  count_layer Debris cs = 0%nat ->
  count_layer Overlay cs = 0%nat ->
  Forall on_cell_layer cs.
Proof.
  intros H1 H2 H3. apply Forall_forall. intros d Hd.
  pose proof (count_layer_zero_not_in _ _ _ H1 Hd).
  pose proof (count_layer_zero_not_in _ _ _ H2 Hd).
  pose proof (count_layer_zero_not_in _ _ _ H3 Hd).
  unfold on_cell_layer. destruct (fst d); tauto.
Qed.

Lemma connection_lines_layer (ch : characteristics) (cs : list drawn) :
  Forall (is_connection_line ch) cs -> Forall (fun d => fst d = ConnectionEdge) cs.
Proof.
  apply Forall_impl. intros d (p1 & p2 & ->). reflexivity.
Qed.

Lemma debris_layer (ch : characteristics) (w h : Z) (cs : list drawn) :
  Forall (is_debris ch w h) cs -> Forall (fun d => fst d = Debris) cs.
Proof.
  apply Forall_impl. intros d (u & v & t & ->). reflexivity.
Qed.

Lemma cell_profile_nil (ch : characteristics) : cell_profile ch [].
Proof. unfold cell_profile. repeat split; intros; reflexivity. Qed.

Lemma cell_profile_app (ch : characteristics) (xs ys : list drawn) :
  cell_profile ch xs -> cell_profile ch ys -> cell_profile ch (xs ++ ys).
Proof.
  unfold cell_profile.
  intros (A1 & A2 & A3 & A4 & A5 & A6 & A7 & A8)
         (B1 & B2 & B3 & B4 & B5 & B6 & B7 & B8).
  rewrite !count_layer_app.
  repeat split; try lia.
  - intros H. rewrite (A6 H), (B6 H). reflexivity.
  - intros H H'. rewrite (A7 H H'), (B7 H H'). lia.
  - intros H. rewrite (A8 H), (B8 H). reflexivity.
Qed.

(** ** The phases, call by call *)

Lemma make_cluster_centers_inset (np : numpy) (ch : characteristics)
    (frame_width frame_height : Z) (post : list (Q * Q) -> list drawn -> Prop) :
  (200 <= frame_width)%Z -> (200 <= frame_height)%Z ->
  (forall centers,
      len centers = num_clusters ch ->
      Forall (in_inset frame_width frame_height) centers ->
      post centers []) ->
  emits (make_cluster_centers np ch frame_width frame_height) post.
Proof.
  intros Hw Hh Hpost. unfold make_cluster_centers.
  apply emits_for_in
    with (I := fun n (cs : list (Q * Q)) add =>
                 add = [] /\ List.length cs = n
                 /\ Forall (in_inset frame_width frame_height) cs).
  - repeat split; constructor.
  - intros n a cs add _ (-> & Hlen & Hall). run. simpl.
    split; [reflexivity |]. split; [rewrite length_app; simpl; lia |].
    apply Forall_app. split; [exact Hall |]. constructor; [| constructor].
    destruct (unit_draw_range u) as [Hu0 Hu1].
    destruct (unit_draw_range u0) as [Hv0 Hv1].
    assert (Hqw : 0 <= inject_Z (frame_width - 200))
      by (change 0 with (inject_Z 0); rewrite <- Zle_Qle; lia).
    assert (Hqh : 0 <= inject_Z (frame_height - 200))
      by (change 0 with (inject_Z 0); rewrite <- Zle_Qle; lia).
    assert (Hew : inject_Z (frame_width - 200) == inject_Z frame_width - 200).
    { unfold Z.sub. rewrite inject_Z_plus, inject_Z_opp. reflexivity. }
    assert (Heh : inject_Z (frame_height - 200) == inject_Z frame_height - 200).
    { unfold Z.sub. rewrite inject_Z_plus, inject_Z_opp. reflexivity. }
    unfold in_inset. cbn [fst snd]. repeat split; nra.
  - intros cs add (-> & Hlen & Hall). apply Hpost; [| exact Hall].
    unfold len. rewrite Hlen, range_length.
    pose proof (num_clusters_range ch). lia.
Qed.

(** X4. When the canvas is at least 200 wide and 200 high, every cluster
    center that [generate_frame] draws lies in the inset rectangle that
    keeps 100 pixels from each border. *)
Theorem cluster_centers_in_inset (np : numpy) (ch : characteristics)
    (frame_width frame_height : Z) (s : state) :
  (200 <= frame_width)%Z -> (200 <= frame_height)%Z ->
  exists centers s',
    make_cluster_centers np ch frame_width frame_height s = Done (centers, s')
    /\ Forall (in_inset frame_width frame_height) centers.
Proof.
  intros Hw Hh.
  destruct (make_cluster_centers_inset np ch frame_width frame_height
              (fun centers _ => Forall (in_inset frame_width frame_height) centers)
              Hw Hh (fun _ _ H => H) s)
    as (centers & s' & _ & E & _ & Hall).
  exists centers, s'. split; assumption.
Qed.

Lemma cluster_centers_in_inset_witness :
  (200 <= 400)%Z
  /\ (200 <= 300)%Z
  /\ exists centers s',
       make_cluster_centers sample_numpy day4 400 300 initial_state
       = Done (centers, s')
       /\ Forall (in_inset 400 300) centers.
Proof.
  split; [lia |]. split; [lia |].
  apply (cluster_centers_in_inset sample_numpy day4 400 300); lia.
Defined.

(** Unroll the loops over concrete ranges and read concrete list items. *)
Ltac eval_ranges :=
  repeat match goal with
         | |- context [range ?a ?b] =>
             let r := eval vm_compute in (range a b) in
             change (range a b) with r
         | |- context [list_getitem ?l ?i] =>
             let r := eval cbv in (list_getitem l i) in
             change (list_getitem l i) with r
         end.

Ltac run_unrolled := repeat (eval_ranges; run_step).

Lemma draw_connections_layout (np : numpy) (ch : characteristics)
    (cluster_centers : list (Q * Q)) (post : unit -> list drawn -> Prop) :
  (len cluster_centers <= 3)%Z ->
  (forall add,
      Forall (is_connection_line ch) add ->
      (Z.of_nat (List.length add)
       <= len cluster_centers * (len cluster_centers - 1) / 2)%Z ->
      (Qlt_bool 0.4 (connection ch) = false -> add = []) ->
      post tt add) ->
  emits (draw_connections np ch cluster_centers) post.
Proof.
  intros Hlen Hpost. unfold draw_connections.
  destruct (Qlt_bool 0.4 (connection ch)) eqn:Hguard.
  2:{ apply emits_ret. apply Hpost; [constructor | | reflexivity].
      simpl. apply Z.div_pos; [| lia]. unfold len in *. nia. }
  destruct cluster_centers as [| c1 [| c2 [| c3 [| c4 rest]]]];
    try (exfalso; unfold len in Hlen; simpl in Hlen; lia).
  all: run_unrolled.
  all: apply Hpost;
    [ repeat (apply Forall_app; split); repeat constructor;
      eexists _, _; reflexivity
    | vm_compute; discriminate
    | discriminate ].
Qed.

Lemma draw_fragments_profile (np : numpy) (ch : characteristics) (x y : Q)
    (post : unit -> list drawn -> Prop) :
  (forall add,
      count_layer ConnectionEdge add = 0%nat ->
      count_layer Debris add = 0%nat ->
      count_layer Overlay add = 0%nat ->
      count_layer CellBody add = 0%nat ->
      count_layer Sarcomere add = 0%nat ->
      count_layer Nucleus add = 0%nat ->
      count_layer Fragment add = 3%nat -> post tt add) ->
  emits (draw_fragments np ch x y) post.
Proof.
  intros Hpost. unfold draw_fragments. run_unrolled. apply Hpost; reflexivity.
Qed.

Lemma draw_sarcomeres_profile (np : numpy) (ch : characteristics)
    (x y cell_width cell_height : Q) (post : unit -> list drawn -> Prop) :
  (forall add,
      count_layer ConnectionEdge add = 0%nat ->
      count_layer Debris add = 0%nat ->
      count_layer Overlay add = 0%nat ->
      count_layer CellBody add = 0%nat ->
      count_layer Fragment add = 0%nat ->
      count_layer Nucleus add = 0%nat ->
      (count_layer Sarcomere add <= 6)%nat ->
      (Qlt_bool 0.3 (sarcomere_organization ch) = false ->
       count_layer Sarcomere add = 0%nat) ->
      (Qlt_bool 0.3 (sarcomere_organization ch) = true ->
       Qlt_bool (sarcomere_organization ch) 0.5 = false ->
       count_layer Sarcomere add = 3%nat) ->
      post tt add) ->
  emits (draw_sarcomeres np ch x y cell_width cell_height) post.
Proof.
  intros Hpost. unfold draw_sarcomeres.
  destruct (Qlt_bool 0.3 (sarcomere_organization ch)) eqn:Hthin.
  2:{ apply emits_ret.
      apply Hpost; intros; rewrite ?count_layer_nil;
        try reflexivity; try discriminate; lia. }
  apply emits_for_in
    with (I := fun (n : nat) (_ : unit) add =>
                 count_layer ConnectionEdge add = 0%nat
                 /\ count_layer Debris add = 0%nat
                 /\ count_layer Overlay add = 0%nat
                 /\ count_layer CellBody add = 0%nat
                 /\ count_layer Fragment add = 0%nat
                 /\ count_layer Nucleus add = 0%nat
                 /\ (count_layer Sarcomere add <= 2 * n)%nat
                 /\ (Qlt_bool (sarcomere_organization ch) 0.5 = false ->
                     count_layer Sarcomere add = n)).
  - repeat split; intros; rewrite ?count_layer_nil; try reflexivity; lia.
  - intros n i [] add _ (H1 & H2 & H3 & H4 & H5 & H6 & H7 & H8).
    destruct (color_base ch) as [[r g] b].
    destruct (Qlt_bool (sarcomere_organization ch) 0.5) eqn:Hweak.
    + run_unrolled.
      all: rewrite ?count_layer_app, ?count_layer_cons, ?count_layer_nil;
        cbn [on_layer fst]; repeat split; try lia; intros; discriminate.
    + run_unrolled.
      rewrite ?count_layer_app, ?count_layer_cons, ?count_layer_nil;
        cbn [on_layer fst]; repeat split; try lia;
        try (intros _; rewrite (H8 eq_refl); lia).
  - intros [] add (H1 & H2 & H3 & H4 & H5 & H6 & H7 & H8).
    change (List.length (range 0 3)) with 3%nat in *.
    apply Hpost; try assumption; try lia; intros; try discriminate.
    now apply H8.
Qed.

Lemma draw_nucleus_profile (np : numpy) (ch : characteristics)
    (x y cell_width cell_height : Q) (post : unit -> list drawn -> Prop) :
  (forall add,
      count_layer ConnectionEdge add = 0%nat ->
      count_layer Debris add = 0%nat ->
      count_layer Overlay add = 0%nat ->
      count_layer CellBody add = 0%nat ->
      count_layer Fragment add = 0%nat ->
      count_layer Sarcomere add = 0%nat ->
      (count_layer Nucleus add <= 1)%nat -> post tt add) ->
  emits (draw_nucleus np ch x y cell_width cell_height) post.
Proof.
  intros Hpost. unfold draw_nucleus. run; apply Hpost; try reflexivity.
  all: rewrite ?count_layer_app, ?count_layer_cons, ?count_layer_nil;
    cbn [on_layer fst]; lia.
Qed.

Lemma draw_whole_cell_profile (np : numpy) (ch : characteristics)
    (x y cell_width cell_height : Q) (cells_drawn : Z)
    (post : Z -> list drawn -> Prop) :
  (forall add,
      cell_profile ch add -> cell_thirds add = 3%Z ->
      post (cells_drawn + 1)%Z add) ->
  emits (draw_whole_cell np ch x y cell_width cell_height cells_drawn) post.
Proof.
  intros Hpost. unfold draw_whole_cell. run.
  apply draw_sarcomeres_profile.
  intros add1 A1 A2 A3 A4 A5 A6 A7 A8 A9. run.
  apply draw_nucleus_profile.
  intros add2 B1 B2 B3 B4 B5 B6 B7. run.
  apply Hpost; unfold cell_profile, cell_thirds;
    rewrite ?count_layer_app, ?count_layer_cons, ?count_layer_nil;
    cbn [on_layer fst]; rewrite ?A1, ?A2, ?A3, ?A4, ?A5, ?A6, ?B1, ?B2, ?B3, ?B4, ?B5, ?B6.
  - repeat split; try lia.
    + intros H. rewrite (A8 H). reflexivity.
    + intros H H'. rewrite (A9 H H'). reflexivity.
  - reflexivity.
Qed.

Lemma draw_cell_profile (np : numpy) (ch : characteristics)
    (beat_pulse cluster_x cluster_y : Q) (cells_drawn : Z)
    (post : Z -> list drawn -> Prop) :
  (forall add,
      cell_profile ch add -> cell_thirds add = 3%Z ->
      post (cells_drawn + 1)%Z add) ->
  emits (draw_cell np ch beat_pulse cluster_x cluster_y cells_drawn) post.
Proof.
  intros Hpost. unfold draw_cell. run.
  all: try (apply draw_whole_cell_profile; intros add H1 H2;
            rewrite ?app_nil_l, ?app_nil_r; now apply Hpost).
  apply draw_fragments_profile. intros add F1 F2 F3 F4 F5 F6 F7. run.
  rewrite ?app_nil_l, ?app_nil_r.
  apply andb_true_iff in Heqb1. destruct Heqb1 as [_ Hdamaged].
  apply Hpost; unfold cell_profile, cell_thirds;
    rewrite ?F1, ?F2, ?F3, ?F4, ?F5, ?F6, ?F7.
  - repeat split; try lia; try (intros; reflexivity).
    rewrite Heqb, Heqb0, Hdamaged. simpl. discriminate.
  - reflexivity.
Qed.

(** The [while] loop again, carrying any property [P] of the calls that
    holds of no call, of each cell and of concatenations. *)
Lemma draw_cells_emits_inv (np : numpy) (fuel : nat) (ch : characteristics)
    (beat_pulse : Q) (cluster_centers : list (Q * Q))
    (P : list drawn -> Prop) (post : Z * Z -> list drawn -> Prop) :
  (0 < len cluster_centers)%Z ->
  (batches (reduced_cell_count ch) <= fuel)%nat ->
  P [] ->
  (forall xs ys, P xs -> P ys -> P (xs ++ ys)) ->
  (forall cluster_x cluster_y cells_drawn (post' : Z -> list drawn -> Prop),
      (forall add, P add -> cell_thirds add = 3%Z -> post' (cells_drawn + 1)%Z add) ->
      emits (draw_cell np ch beat_pulse cluster_x cluster_y cells_drawn) post') ->
  (forall clusters_used add,
      P add ->
      cell_thirds add = (3 * Z.max 0 (reduced_cell_count ch))%Z ->
      post (Z.max 0 (reduced_cell_count ch), clusters_used) add) ->
  emits (draw_cells np fuel ch beat_pulse cluster_centers) post.
Proof.
  intros Hlen Hfuel Pnil Papp Hcell Hpost. unfold draw_cells.
  apply emits_while
    with (I := fun (st : Z * Z) add =>
                 (0 <= fst st <= Z.max 0 (reduced_cell_count ch))%Z
                 /\ (0 <= snd st)%Z
                 /\ P add
                 /\ cell_thirds add = (3 * fst st)%Z)
         (variant := fun st : Z * Z => batches (reduced_cell_count ch - fst st)).
  - cbn [fst snd]. repeat split; try reflexivity; try lia. exact Pnil.
  - cbn [fst]. now rewrite Z.sub_0_r.
  - intros [cd cu] add (Hcd & Hcu & HP & Hthirds) Hcond.
    cbn [fst snd] in Hcd, Hcu, Hthirds. apply Z.ltb_lt in Hcond.
    apply emits_bind.
    apply emits_weaken
      with (post := fun (r : Q * Q * Z) add1 => add1 = [] /\ (0 <= snd r)%Z).
    + destruct (cu <? len cluster_centers)%Z eqn:Hused.
      * apply Z.ltb_lt in Hused.
        destruct (list_getitem_in_range cluster_centers cu) as [c E]; [lia |].
        rewrite E. run. simpl. split; [reflexivity | lia].
      * apply emits_bind. apply randint_emits; [exact Hlen |].
        intros z Hz.
        destruct (list_getitem_in_range cluster_centers z) as [c E]; [lia |].
        rewrite E. run. simpl. split; [reflexivity | lia].
    + intros [[cluster_x cluster_y] cu'] add1 [-> Hcu']. simpl in Hcu'.
      apply emits_bind.
      apply emits_for_in
        with (I := fun (n : nat) (cd' : Z) add' =>
                     cd' = (cd + Z.of_nat n)%Z
                     /\ P add'
                     /\ cell_thirds add' = (3 * Z.of_nat n)%Z).
      * repeat split; try reflexivity; [lia | exact Pnil].
      * intros n a cd' add' _ (-> & HP' & Ht').
        apply Hcell. intros add2 HP2 Ht2.
        rewrite cell_thirds_app. repeat split; [lia | now apply Papp | lia].
      * intros cd' add' (-> & HP' & Ht'). rewrite range_length in *.
        run. cbn [fst snd].
        rewrite !app_nil_l, !app_nil_r, cell_thirds_app.
        rewrite Z.sub_0_r in *.
        rewrite Z2Nat.id in * by lia.
        repeat split; try lia; [now apply Papp |].
        apply batches_step. exact Hcond.
  - intros [cd cu] add (Hcd & Hcu & HP & Hthirds) Hcond.
    cbn [fst snd] in Hcd, Hcu, Hthirds. apply Z.ltb_ge in Hcond.
    assert (Heq : cd = Z.max 0 (reduced_cell_count ch)) by lia.
    subst cd. apply Hpost; assumption.
Qed.

Lemma draw_debris_layout (np : numpy) (ch : characteristics)
    (frame_width frame_height : Z) (post : unit -> list drawn -> Prop) :
  (forall add,
      Forall (is_debris ch frame_width frame_height) add ->
      List.length add = Z.to_nat (py_int (debris_level ch * 80)) ->
      post tt add) ->
  emits (draw_debris np ch frame_width frame_height) post.
Proof.
  intros Hpost. unfold draw_debris.
  apply emits_for_in
    with (I := fun (n : nat) (_ : unit) add =>
                 Forall (is_debris ch frame_width frame_height) add
                 /\ List.length add = n).
  - split; [constructor | reflexivity].
  - intros n i [] add _ [Hall Hlen]. run.
    rewrite !app_nil_l. split.
    + apply Forall_app. split; [exact Hall |]. constructor; [| constructor].
      exists u, u0, u1. reflexivity.
    + rewrite length_app. simpl. lia.
  - intros [] add [Hall Hlen]. apply Hpost; [exact Hall |].
    rewrite Hlen, range_length. f_equal. lia.
Qed.

(** The calls of a frame, phase after phase. *)
Lemma generate_frame_layout (np : numpy) (fuel : nat) (ch : characteristics)
    (time_point : Q) (frame_width frame_height : Z) (s : state) :
  (batches (reduced_cell_count ch) <= fuel)%nat ->
  exists img s' conn cells debris,
    generate_frame np fuel ch time_point frame_width frame_height s = Done (img, s')
    /\ calls img = conn ++ cells ++ debris ++ [overlay_call]
    /\ Forall (is_connection_line ch) conn
    /\ (Z.of_nat (List.length conn)
        <= num_clusters ch * (num_clusters ch - 1) / 2)%Z
    /\ (Qlt_bool 0.4 (connection ch) = false -> conn = [])
    /\ cell_profile ch cells
    /\ cell_thirds cells = (3 * Z.max 0 (reduced_cell_count ch))%Z
    /\ Forall (is_debris ch frame_width frame_height) debris
    /\ List.length debris = Z.to_nat (py_int (debris_level ch * 80)).
Proof.
  intros Hfuel. unfold generate_frame.
  set (beat_pulse :=
         np_sin np (mod1 (time_point * (1.0 + beating_strength ch)) * np_pi np)).
  unfold bind at 1. unfold new_image at 1.
  set (s0 := {| cursor := cursor s; canvas := [] |}).
  assert (Hrest :
    emits
      (cluster_centers <- make_cluster_centers np ch frame_width frame_height ;;
       draw_connections np ch cluster_centers ;;
       draw_cells np fuel ch beat_pulse cluster_centers ;;
       draw_debris np ch frame_width frame_height ;;
       draw Overlay (Rectangle (10, 10, 160, 30) (240, 240, 240, 180)%Z))
      (fun _ add =>
         exists conn cells debris,
           add = conn ++ cells ++ debris ++ [overlay_call]
           /\ Forall (is_connection_line ch) conn
           /\ (Z.of_nat (List.length conn)
               <= num_clusters ch * (num_clusters ch - 1) / 2)%Z
           /\ (Qlt_bool 0.4 (connection ch) = false -> conn = [])
           /\ cell_profile ch cells
           /\ cell_thirds cells = (3 * Z.max 0 (reduced_cell_count ch))%Z
           /\ Forall (is_debris ch frame_width frame_height) debris
           /\ List.length debris = Z.to_nat (py_int (debris_level ch * 80)))).
  { pose proof (num_clusters_range ch) as Hn.
    apply emits_bind. apply make_cluster_centers_emits. intros centers Hlen.
    apply emits_bind. apply draw_connections_layout; [lia |].
    intros conn Hc1 Hc2 Hc3.
    apply emits_bind.
    apply draw_cells_emits_inv with (P := cell_profile ch);
      [lia | exact Hfuel | apply cell_profile_nil | apply cell_profile_app
      | intros; now apply draw_cell_profile |].
    intros cu cells Hp Ht.
    apply emits_bind. apply draw_debris_layout. intros debris Hd1 Hd2.
    apply emits_draw.
    exists conn, cells, debris. rewrite Hlen in Hc2.
    split; [reflexivity |]. split; [exact Hc1 |]. split; [exact Hc2 |].
    split; [exact Hc3 |]. split; [exact Hp |]. split; [exact Ht |].
    split; [exact Hd1 | exact Hd2]. }
  destruct (Hrest s0)
    as ([] & s1 & add & E & C & conn & cells & debris & Hadd & Hfacts).
  exists {| size := (frame_width, frame_height);
            background := (255, 255, 255)%Z;
            calls := canvas s1 |}, s1, conn, cells, debris.
  split.
  - unfold bind in E |- *.
    repeat match type of E with
           | context [match ?x with Done _ => _ | Raise _ => _ | OutOfFuel => _ end] =>
               destruct x as [[? ?] | |] eqn:?; try discriminate
           end.
    rewrite E. reflexivity.
  - cbn [calls]. rewrite C. subst s0. cbn [canvas app].
    split; [exact Hadd | exact Hfacts].
Qed.

(** The counts of a frame are those of its phases. *)
Lemma frame_counts (ch : characteristics) (w h : Z)
    (conn cells debris : list drawn) (l : layer) :
  Forall (is_connection_line ch) conn ->
  cell_profile ch cells ->
  Forall (is_debris ch w h) debris ->
  count_layer l (conn ++ cells ++ debris ++ [overlay_call])
  = match l with
    | ConnectionEdge => List.length conn
    | Debris => List.length debris
    | Overlay => 1%nat
    | _ => count_layer l cells
    end.
Proof.
  intros Hc Hp Hd.
  pose proof (connection_lines_layer _ _ Hc) as Hc'.
  pose proof (debris_layer _ _ _ _ Hd) as Hd'.
  destruct Hp as (P1 & P2 & P3 & _).
  rewrite !count_layer_app.
  destruct l;
    rewrite ?(count_layer_same _ _ Hc'), ?(count_layer_same _ _ Hd'),
      ?(count_layer_other _ _ _ Hc'), ?(count_layer_other _ _ _ Hd'),
      ?P1, ?P2, ?P3 by discriminate;
    unfold overlay_call; rewrite count_layer_cons, count_layer_nil;
    cbn [on_layer fst]; lia.
Qed.

(** X5. The calls of a frame come in painter's order: first the lines
    between cluster centers (width 2, the base color at alpha 120), then
    the calls that draw the cells, then the debris particles, and last
    the overlay rectangle, which is therefore on top. *)
Theorem frame_painters_order (np : numpy) (extra : nat) (ch : characteristics)
    (time_point : Q) (frame_width frame_height : Z) (s : state) :
  exists img s' conn cells debris,
    generate_frame np (3 + extra) ch time_point frame_width frame_height s
    = Done (img, s')
    /\ calls img = conn ++ cells ++ debris ++ [overlay_call]
    /\ Forall (is_connection_line ch) conn
    /\ Forall on_cell_layer cells
    /\ Forall (is_debris ch frame_width frame_height) debris.
Proof.
  destruct (generate_frame_layout np (3 + extra) ch time_point
              frame_width frame_height s)
    as (img & s' & conn & cells & debris & E & Hcalls & Hc & _ & _ & Hp & _ & Hd & _).
  { pose proof (batches_reduced ch). lia. }
  exists img, s', conn, cells, debris.
  split; [exact E |]. split; [exact Hcalls |]. split; [exact Hc |].
  split; [| exact Hd].
  destruct Hp as (P1 & P2 & P3 & _). now apply on_cell_layer_of_counts.
Qed.











(** X9. Fragments are drawn only for a damaged culture: when the debris
    level is at most 0.5, or the shape is "round" or one of the
    elongated shapes, a frame has no fragment and shows every one of its
    cells as a whole body. *)
Theorem fragments_only_when_damaged (np : numpy) (extra : nat)
    (ch : characteristics) (time_point : Q) (frame_width frame_height : Z)
    (s : state) :
  debris_level ch <= 0.5
  \/ shape ch = "round"%string
  \/ In (shape ch) elongated_shapes ->
  exists img s',
    generate_frame np (3 + extra) ch time_point frame_width frame_height s
    = Done (img, s')
    /\ count_layer Fragment (calls img) = 0%nat
    /\ Z.of_nat (count_layer CellBody (calls img))
       = Z.max 0 (reduced_cell_count ch).
Proof.
  intros Hcond.
  destruct (generate_frame_layout np (3 + extra) ch time_point
              frame_width frame_height s)
    as (img & s' & conn & cells & debris
        & E & Hcalls & Hc & _ & _ & Hp & Ht & Hd & _).
  { pose proof (batches_reduced ch). lia. }
  exists img, s'. split; [exact E |].
  rewrite Hcalls, !(frame_counts ch frame_width frame_height) by assumption.
  destruct Hp as (_ & _ & _ & _ & _ & _ & _ & P8).
  assert (Hfrag : count_layer Fragment cells = 0%nat).
  { apply P8. destruct Hcond as [Hdeb | [Hround | Helong]].
    - rewrite (Qlt_bool_false _ _ Hdeb). simpl. apply orb_true_r.
    - rewrite Hround. reflexivity.
    - apply orb_true_iff. left. apply orb_true_iff. right.
      apply existsb_exists. exists (shape ch). split; [exact Helong |].
      apply String.eqb_refl. }
  split; [exact Hfrag |].
  unfold cell_thirds in Ht. rewrite Hfrag in Ht. lia.
Qed.

Lemma fragments_only_when_damaged_witness :
  (debris_level day5 <= 0.5
   \/ shape day5 = "round"%string
   \/ In (shape day5) elongated_shapes)
  /\ exists img s',
       generate_frame sample_numpy (3 + 0) day5 0 400 300 initial_state
       = Done (img, s')
       /\ count_layer Fragment (calls img) = 0%nat
       /\ Z.of_nat (count_layer CellBody (calls img))
          = Z.max 0 (reduced_cell_count day5).
Proof.
  assert (H : debris_level day5 <= 0.5
              \/ shape day5 = "round"%string
              \/ In (shape day5) elongated_shapes)
    by (left; unfold Qle; simpl; lia).
  split; [exact H |].
  exact (fragments_only_when_damaged sample_numpy 0 day5 0 400 300 initial_state H).
Defined.

(** X10. For every day of [1, 8] the frame of the interpolated record has
    two clusters, hence at most one connection edge, and between 6 and
    15 cells. *)
Theorem day_frame_population (np : numpy) (extra : nat) (day time_point : Q)
    (frame_width frame_height : Z) (s : state) :
  1 <= day -> day <= 8 ->
  exists r img s',
    interpolate_characteristics day = Done r
    /\ generate_frame np (3 + extra) r time_point frame_width frame_height s
       = Done (img, s')
    /\ num_clusters r = 2%Z
    /\ (count_layer ConnectionEdge (calls img) <= 1)%nat
    /\ (3 * 6 <= cell_thirds (calls img) <= 3 * 15)%Z.
Proof.
  intros H1 H8.
  destruct (interpolate_in_table_ranges day H1 H8) as (r & Hr & Hin).
  destruct (table_ranges_counts r Hin) as [Hn Hred].
  destruct (generate_frame_layout np (3 + extra) r time_point
              frame_width frame_height s)
    as (img & s' & conn & cells & debris
        & E & Hcalls & Hc & Hbound & _ & Hp & Ht & Hd & _).
  { pose proof (batches_reduced r). lia. }
  exists r, img, s'. split; [exact Hr |]. split; [exact E |].
  split; [exact Hn |].
  unfold cell_thirds.
  rewrite Hcalls, !(frame_counts r frame_width frame_height) by assumption.
  rewrite Hn in Hbound. change (2 * (2 - 1) / 2)%Z with 1%Z in Hbound.
  unfold cell_thirds in Ht. split; lia.
Qed.

Lemma day_frame_population_witness :
  1 <= 7.5
  /\ 7.5 <= 8
  /\ exists r img s',
       interpolate_characteristics 7.5 = Done r
       /\ generate_frame sample_numpy (3 + 0) r 0 400 300 initial_state
          = Done (img, s')
       /\ num_clusters r = 2%Z
       /\ (count_layer ConnectionEdge (calls img) <= 1)%nat
       /\ (3 * 6 <= cell_thirds (calls img) <= 3 * 15)%Z.
Proof.
  split; [unfold Qle; simpl; lia |]. split; [unfold Qle; simpl; lia |].
  apply (day_frame_population sample_numpy 0 7.5 0 400 300);
    unfold Qle; simpl; lia.
Defined.

(** ** The outcomes of the assembler *)



(** What the assembler returns, from what its loop returns. *)
Lemma assemble_unfold (np : numpy) (fuel : nat) (min_day max_day : Q)
    (animation_speed : string) (s : state) (positions : list Q) :
  linspace min_day max_day (total_keyframes min_day max_day) = Done positions ->
  assemble np fuel min_day max_day animation_speed s
  = match
      for_in positions
        (fun day_decimal sample_frames =>
           characteristics <- lift (interpolate_characteristics day_decimal) ;;
           frame <- generate_frame np fuel characteristics
                      ((day_decimal - 1) * (60 / 7)) 400 300 ;;
           ret (sample_frames ++ [frame]))
        [] s
    with
    | Done (sample_frames, s1) =>
        match duration_map animation_speed with
        | Some ms =>
            match sample_frames with
            | [] => Raise IndexError
            | _ :: _ =>
                Done ({| frames := sample_frames; duration := ms; loop := 0 |}, s1)
            end
        | None => Raise (KeyErrorStr animation_speed)
        end
    | Raise e => Raise e
    | OutOfFuel => OutOfFuel
    end.
Proof.
  intros El. unfold assemble. rewrite El.
  unfold bind at 1. cbn [lift]. cbv beta iota zeta. unfold bind at 1.
  match goal with
  | |- match ?x with _ => _ end = _ => destruct x as [[frames' s1] | |]
  end; try reflexivity.
  unfold bind, getitem_str, lift.
  destruct (duration_map animation_speed); [| reflexivity].
  destruct frames'; reflexivity.
Qed.


Lemma day_range_map_values (day_selection : string) (min_day max_day : Q) :
  day_range_map day_selection = Some (min_day, max_day) ->
  (1 <= min_day /\ min_day <= 8)
  /\ (1 <= max_day /\ max_day <= 8)
  /\ (total_keyframes min_day max_day = 16%Z
      \/ total_keyframes min_day max_day = 12%Z
      \/ total_keyframes min_day max_day = 6%Z).
Proof.
  unfold day_range_map. intros H.
  repeat match type of H with
         | (if ?b then _ else _) = _ => destruct b
         end;
    try discriminate; injection H as <- <-;
    (split; [split; unfold Qle; simpl; lia |]);
    (split; [split; unfold Qle; simpl; lia |]);
    vm_compute; tauto.
Qed.

(** X13. Every choice the two widgets offer gives an animation: for a
    day selection and a speed that are keys of [day_range_map] and
    [duration_map], the [if generate_button:] block returns an animation
    of 16, 12 or 6 frames (the keyframe count of the range) at the
    duration of the speed, looping forever. *)
Theorem generate_animation_runs (np : numpy) (extra : nat)
    (day_selection animation_speed : string) (min_day max_day : Q) (ms : Z)
    (s : state) :
  day_range_map day_selection = Some (min_day, max_day) ->
  duration_map animation_speed = Some ms ->
  exists anim s',
    generate_animation np (3 + extra) day_selection animation_speed s
    = Done (anim, s')
    /\ len (frames anim) = total_keyframes min_day max_day
    /\ (len (frames anim) = 16%Z \/ len (frames anim) = 12%Z
        \/ len (frames anim) = 6%Z)
    /\ duration anim = ms
    /\ loop anim = 0%Z.
Proof.
  intros Hrange Hspeed.
  destruct (day_range_map_values _ _ _ Hrange) as (Hmin & Hmax & Hcount).
  destruct (assemble_runs np (3 + extra) min_day max_day animation_speed ms s)
    as (anim & s' & E & Hlen & Hdur & Hloop); try assumption; [lia |].
  exists anim, s'. split.
  - unfold generate_animation, getitem_str. rewrite Hrange.
    unfold bind at 1. cbn [lift]. exact E.
  - rewrite Hlen. repeat split; assumption.
Qed.

Lemma generate_animation_runs_witness :
  day_range_map "Middle (3-6)" = Some (3.0, 6.0)
  /\ duration_map "Fast" = Some 125%Z
  /\ exists anim s',
       generate_animation sample_numpy (3 + 0) "Middle (3-6)" "Fast" initial_state
       = Done (anim, s')
       /\ len (frames anim) = total_keyframes 3.0 6.0
       /\ (len (frames anim) = 16%Z \/ len (frames anim) = 12%Z
           \/ len (frames anim) = 6%Z)
       /\ duration anim = 125%Z
       /\ loop anim = 0%Z.
Proof.
  split; [reflexivity |]. split; [reflexivity |].
  exact (generate_animation_runs sample_numpy 0 "Middle (3-6)" "Fast"
           3.0 6.0 125 initial_state eq_refl eq_refl).
Defined.

(** X14. A day selection that is no key of [day_range_map] raises its
    [KeyError] at once; when the day selection is a key, a speed that is
    no key of [duration_map] raises its [KeyError]. *)
Theorem generate_animation_missing_keys (np : numpy) (extra : nat)
    (day_selection animation_speed : string) (s : state) :
  (day_range_map day_selection = None ->
   generate_animation np (3 + extra) day_selection animation_speed s
   = Raise (KeyErrorStr day_selection))
  /\ (forall min_day max_day,
        day_range_map day_selection = Some (min_day, max_day) ->
        duration_map animation_speed = None ->
        generate_animation np (3 + extra) day_selection animation_speed s
        = Raise (KeyErrorStr animation_speed)).
Proof.
  split.
  - intros Hnone. unfold generate_animation, getitem_str. rewrite Hnone.
    reflexivity.
  - intros min_day max_day Hrange Hspeed.
    destruct (day_range_map_values _ _ _ Hrange) as (Hmin & Hmax & _).
    pose proof (total_keyframes_ge min_day max_day) as Hge.
    destruct (linspace_runs min_day max_day (total_keyframes min_day max_day))
      as (positions & El & Hlen & Hbetween); [lia |].
    destruct (sample_frames_run np (3 + extra) positions) with (sample_frames := @nil image) (s := s)
      as (frames' & s' & Ef & Hframes); [lia | |].
    { intros d Hd. destruct (Hbetween d Hd) as [[H1 H2] | [H1 H2]]; split; lra. }
    unfold generate_animation, getitem_str. rewrite Hrange.
    unfold bind at 1. cbn [lift].
    rewrite (assemble_unfold np (3 + extra) min_day max_day animation_speed s
               positions El).
    cbv zeta in Ef. rewrite Ef, Hspeed. reflexivity.
Qed.

Lemma generate_animation_missing_keys_witness :
  day_range_map "Days 2-4" = None
  /\ day_range_map "Late (6-8)" = Some (6.0, 8.0)
  /\ duration_map "Turbo" = None
  /\ generate_animation sample_numpy (3 + 0) "Days 2-4" "Fast" initial_state
     = Raise (KeyErrorStr "Days 2-4")
  /\ generate_animation sample_numpy (3 + 0) "Late (6-8)" "Turbo" initial_state
     = Raise (KeyErrorStr "Turbo").
Proof.
  split; [reflexivity |]. split; [reflexivity |]. split; [reflexivity |].
  split.
  - exact (proj1 (generate_animation_missing_keys sample_numpy 0
                    "Days 2-4" "Fast" initial_state) eq_refl).
  - exact (proj2 (generate_animation_missing_keys sample_numpy 0
                    "Late (6-8)" "Turbo" initial_state)
             6.0 8.0 eq_refl eq_refl).
Defined.

(** ** The preview and its cache *)

Lemma py_round_cases (x : Q) :
  (py_round x = Qfloor x /\ x - inject_Z (Qfloor x) <= 1 # 2)
  \/ (py_round x = (Qfloor x + 1)%Z /\ 1 # 2 <= x - inject_Z (Qfloor x)).
Proof.
  unfold py_round. cbv zeta. unfold Qlt_bool.
  destruct (Qle_bool (1 # 2) (x - inject_Z (Qfloor x))) eqn:E1; cbn [negb].
  - apply Qle_bool_iff in E1.
    destruct (Qle_bool (x - inject_Z (Qfloor x)) (1 # 2)) eqn:E2; cbn [negb].
    + apply Qle_bool_iff in E2.
      destruct (Z.even (Qfloor x)); [left | right]; split; auto.
    + right. split; auto.
  - left. split; [reflexivity |].
    destruct (Qlt_le_dec (1 # 2) (x - inject_Z (Qfloor x))) as [H | H]; [| exact H].
    apply Qlt_le_weak in H. apply Qle_bool_iff in H. congruence.
Qed.

(** Rounding moves a number by at most one half. *)
Lemma py_round_close (x : Q) :
  - (1 # 2) <= inject_Z (py_round x) - x /\ inject_Z (py_round x) - x <= 1 # 2.
Proof.
  pose proof (Qfloor_le x) as Hlo. pose proof (Qlt_floor x) as Hhi.
  rewrite inject_Z_plus in Hhi. change (inject_Z 1) with 1 in Hhi.
  destruct (py_round_cases x) as [[-> H] | [-> H]].
  - split; lra.
  - rewrite inject_Z_plus. change (inject_Z 1) with 1. split; lra.
Qed.

(** Rounding never leaves an interval with integer end points. *)
Lemma py_round_between (a b : Z) (x : Q) :
  inject_Z a <= x -> x <= inject_Z b -> (a <= py_round x <= b)%Z.
Proof.
  intros Ha Hb.
  assert (Hfa : (a <= Qfloor x)%Z)
    by (rewrite <- (Qfloor_Z a); now apply Qfloor_resp_le).
  assert (Hfb : (Qfloor x <= b)%Z)
    by (rewrite <- (Qfloor_Z b); now apply Qfloor_resp_le).
  destruct (py_round_cases x) as [[-> H] | [-> H]]; [lia |].
  split; [lia |].
  assert (Hlt : (Qfloor x < b)%Z); [| lia].
  rewrite Zlt_Qlt. lra.
Qed.

Lemma py_round_comp (x y : Q) : x == y -> py_round x = py_round y.
Proof.
  intros H. unfold py_round. cbv zeta. unfold Qlt_bool.
  rewrite (Qfloor_comp x y H).
  assert (Hr : x - inject_Z (Qfloor y) == y - inject_Z (Qfloor y))
    by (rewrite H; reflexivity).
  rewrite (Qleb_comp _ _ (Qeq_refl (1 # 2)) _ _ Hr).
  rewrite (Qleb_comp _ _ Hr _ _ (Qeq_refl (1 # 2))).
  reflexivity.
Qed.

Lemma py_round_inject_Z (n : Z) : py_round (inject_Z n) = n.
Proof.
  pose proof (py_round_between n n (inject_Z n) (Qle_refl _) (Qle_refl _)). lia.
Qed.

Lemma day_key_in_range (preview_day : Q) :
  1 <= preview_day -> preview_day <= 8 ->
  1 <= day_key_of preview_day /\ day_key_of preview_day <= 8.
Proof.
  intros H1 H8. unfold day_key_of.
  destruct (py_round_between 2 16 (preview_day * 2)) as [Hlo Hhi].
  - change (inject_Z 2) with 2. lra.
  - change (inject_Z 16) with 16. lra.
  - rewrite Zle_Qle in Hlo, Hhi.
    change (inject_Z 2) with 2 in Hlo. change (inject_Z 16) with 16 in Hhi.
    unfold Qdiv. change (/ 2) with (1 # 2). split; lra.
Qed.

(** X15. The key of the preview cache is the multiple of 0.5 nearest to
    the previewed day, at most 0.25 away from it; it lies in [1, 8]
    when the day does; and a day that is already a multiple of 0.5, as
    every position of the slider is, is its own key. *)
Theorem day_key_nearest_half (preview_day : Q) :
  (- (1 # 4) <= day_key_of preview_day - preview_day
   /\ day_key_of preview_day - preview_day <= 1 # 4)
  /\ (1 <= preview_day -> preview_day <= 8 ->
      1 <= day_key_of preview_day /\ day_key_of preview_day <= 8)
  /\ (forall n : Z,
        preview_day == inject_Z n / 2 -> day_key_of preview_day == preview_day).
Proof.
  unfold day_key_of. split; [| split].
  - destruct (py_round_close (preview_day * 2)) as [Hlo Hhi].
    unfold Qdiv. change (/ 2) with (1 # 2). split; lra.
  - intros H1 H8. exact (day_key_in_range preview_day H1 H8).
  - intros n Hn.
    assert (Hx : preview_day * 2 == inject_Z n).
    { rewrite Hn. unfold Qdiv. change (/ 2) with (1 # 2). ring. }
    rewrite (py_round_comp _ _ Hx), py_round_inject_Z. rewrite Hn. reflexivity.
Qed.

Lemma day_key_nearest_half_witness :
  (1 <= 3.3 /\ 3.3 <= 8)
  /\ 4.5 == inject_Z 9 / 2
  /\ (1 <= day_key_of 3.3 /\ day_key_of 3.3 <= 8)
  /\ day_key_of 4.5 == 4.5.
Proof.
  assert (Ha : 1 <= 3.3 /\ 3.3 <= 8) by (split; unfold Qle; simpl; lia).
  assert (Hb : 4.5 == inject_Z 9 / 2) by reflexivity.
  split; [exact Ha |]. split; [exact Hb |]. split.
  - exact (proj1 (proj2 (day_key_nearest_half 3.3)) (proj1 Ha) (proj2 Ha)).
  - exact (proj2 (proj2 (day_key_nearest_half 4.5)) 9%Z Hb).
Defined.

Lemma cache_get_set_same (cache : preview_cache) (k : Q) (v : image) :
  cache_get (cache_set cache k v) k = Some v.
Proof.
  induction cache as [| [k0 v0] rest IH]; simpl.
  - now rewrite Qeq_bool_refl.
  - destruct (Qeq_bool k0 k) eqn:E; simpl; rewrite E; [reflexivity | exact IH].
Qed.

Lemma cache_get_set_other (cache : preview_cache) (k k' : Q) (v : image) :
  ~ k == k' -> cache_get (cache_set cache k v) k' = cache_get cache k'.
Proof.
  intros Hne. induction cache as [| [k0 v0] rest IH]; simpl.
  - destruct (Qeq_bool k k') eqn:E; [| reflexivity].
    apply Qeq_bool_iff in E. contradiction.
  - destruct (Qeq_bool k0 k) eqn:E; simpl.
    + destruct (Qeq_bool k0 k') eqn:E'; [| reflexivity].
      apply Qeq_bool_iff in E, E'. exfalso. apply Hne.
      rewrite <- E, <- E'. reflexivity.
    + destruct (Qeq_bool k0 k'); [reflexivity | exact IH].
Qed.

(** A preview of a day of [1, 8]: the frame, and what the cache holds
    after it. *)
Lemma preview_runs (np : numpy) (fuel : nat) (preview_day : Q)
    (cache : preview_cache) (s : state) :
  (3 <= fuel)%nat ->
  1 <= preview_day -> preview_day <= 8 ->
  exists frame cache' s',
    preview np fuel preview_day cache s = Done ((frame, cache'), s')
    /\ cache_get cache' (day_key_of preview_day) = Some frame
    /\ (forall k, ~ day_key_of preview_day == k ->
                  cache_get cache' k = cache_get cache k)
    /\ (forall f, cache_get cache (day_key_of preview_day) = Some f ->
                  frame = f /\ cache' = cache /\ s' = s).
Proof.
  intros Hfuel H1 H8. unfold preview. cbv zeta.
  destruct (cache_get cache (day_key_of preview_day)) as [f |] eqn:Hget.
  - exists f, cache, s. split; [reflexivity |]. split; [exact Hget |].
    split; [reflexivity |]. intros f' Hf'. injection Hf' as <-. auto.
  - destruct (day_key_in_range preview_day H1 H8) as [Hk1 Hk8].
    destruct (interpolate_returns (day_key_of preview_day) Hk1 Hk8) as [r Er].
    destruct (generate_frame_runs np fuel r
                ((day_key_of preview_day - 1) * (60 / 7)) 400 300 s)
      as (img & s' & Eg & _).
    { pose proof (batches_reduced r). lia. }
    exists img, (cache_set cache (day_key_of preview_day) img), s'.
    split; [| split; [| split]].
    + unfold bind at 1. rewrite Er. cbn [lift]. unfold bind at 1.
      rewrite Eg. reflexivity.
    + apply cache_get_set_same.
    + intros k Hk. now apply cache_get_set_other.
    + intros f Hf. discriminate Hf.
Qed.

(** X16. A preview of a day of [1, 8] returns a frame and leaves it in
    the cache under the key of that day; a second preview of the same
    day, from any state of the random source, returns that same frame
    and changes neither the cache nor the state: nothing is drawn
    again. *)
Theorem preview_served_from_cache (np : numpy) (extra : nat) (preview_day : Q)
    (cache : preview_cache) (s : state) :
  1 <= preview_day -> preview_day <= 8 ->
  exists frame cache' s',
    preview np (3 + extra) preview_day cache s = Done ((frame, cache'), s')
    /\ cache_get cache' (day_key_of preview_day) = Some frame
    /\ forall (fuel : nat) (s2 : state),
         preview np fuel preview_day cache' s2 = Done ((frame, cache'), s2).
Proof.
  intros H1 H8.
  destruct (preview_runs np (3 + extra) preview_day cache s)
    as (frame & cache' & s' & E & Hget & _); [lia | assumption | assumption |].
  exists frame, cache', s'. split; [exact E |]. split; [exact Hget |].
  intros fuel s2. unfold preview. cbv zeta. rewrite Hget. reflexivity.
Qed.

Lemma preview_served_from_cache_witness :
  1 <= 2.5
  /\ 2.5 <= 8
  /\ exists frame cache' s',
       preview sample_numpy (3 + 0) 2.5 [] initial_state
       = Done ((frame, cache'), s')
       /\ cache_get cache' (day_key_of 2.5) = Some frame
       /\ forall (fuel : nat) (s2 : state),
            preview sample_numpy fuel 2.5 cache' s2 = Done ((frame, cache'), s2).
Proof.
  split; [unfold Qle; simpl; lia |]. split; [unfold Qle; simpl; lia |].
  apply (preview_served_from_cache sample_numpy 0 2.5 [] initial_state);
    unfold Qle; simpl; lia.
Defined.

(** X17. A preview of a day of [1, 8] leaves the cached frame of every
    other key as it was; and when the day is already cached, it returns
    the cached frame and leaves the cache and the state untouched. *)
Theorem preview_keeps_other_days (np : numpy) (extra : nat) (preview_day : Q)
    (cache : preview_cache) (s : state) :
  1 <= preview_day -> preview_day <= 8 ->
  exists frame cache' s',
    preview np (3 + extra) preview_day cache s = Done ((frame, cache'), s')
    /\ (forall k, ~ day_key_of preview_day == k ->
                  cache_get cache' k = cache_get cache k)
    /\ (forall f, cache_get cache (day_key_of preview_day) = Some f ->
                  frame = f /\ cache' = cache /\ s' = s).
Proof.
  intros H1 H8.
  destruct (preview_runs np (3 + extra) preview_day cache s)
    as (frame & cache' & s' & E & _ & Hother & Hhit);
    [lia | assumption | assumption |].
  exists frame, cache', s'. split; [exact E |]. split; assumption.
Qed.

Lemma preview_keeps_other_days_witness :
  (1 <= 5
   /\ 5 <= 8
   /\ cache_get stocked_cache 2.0 = Some blank_frame
   /\ exists frame cache' s',
        preview sample_numpy (3 + 0) 5 stocked_cache initial_state
        = Done ((frame, cache'), s')
        /\ cache_get cache' 2.0 = Some blank_frame)
  /\ (1 <= 2.0
      /\ 2.0 <= 8
      /\ cache_get stocked_cache (day_key_of 2.0) = Some blank_frame
      /\ preview sample_numpy (3 + 0) 2.0 stocked_cache initial_state
         = Done ((blank_frame, stocked_cache), initial_state)).
Proof.
  split.
  - split; [unfold Qle; simpl; lia |]. split; [unfold Qle; simpl; lia |].
    split; [reflexivity |].
    destruct (preview_keeps_other_days sample_numpy 0 5 stocked_cache initial_state)
      as (frame & cache' & s' & E & Hother & _);
      [unfold Qle; simpl; lia | unfold Qle; simpl; lia |].
    exists frame, cache', s'. split; [exact E |].
    rewrite (Hother 2.0); [reflexivity |].
    intros Hsame. vm_compute in Hsame. discriminate Hsame.
  - split; [unfold Qle; simpl; lia |]. split; [unfold Qle; simpl; lia |].
    split; [reflexivity |].
    destruct (preview_keeps_other_days sample_numpy 0 2.0 stocked_cache initial_state)
      as (frame & cache' & s' & E & _ & Hhit);
      [unfold Qle; simpl; lia | unfold Qle; simpl; lia |].
    destruct (Hhit blank_frame eq_refl) as (Hf & Hc & Hs).
    rewrite E, Hf, Hc, Hs. reflexivity.
Defined.
